(** * fitlins: contrast normalisation and run matching (interfaces/nistats.py)

    A shallow embedding of [fitlins/interfaces/nistats.py]: the contrast
    normaliser [prepare_contrasts], the helpers [_flatten] and [_match], and
    the two drivers [FirstLevelModel._run_interface] and
    [SecondLevelModel._run_interface].

    Python values are embedded in one universe [value] so that the dynamic
    type errors of the source (subscripting a list with a string, unpacking a
    list as a mapping, a call with a missing argument) are results of
    evaluation.  Dictionaries are finite maps with string keys; numbers are
    integers (floating point values are outside the modelled fragment, and the
    modelled code only ever copies or compares them with zero). *)

From Stdlib Require Import ZArith.
From stdpp Require Import gmap strings list fin_maps.

Local Set Warnings "-register-all".
Local Open Scope Z_scope.

(** ** Python values and exceptions *)

Module Py.

(** [VUndefined] is nipype's [Undefined] sentinel, the value of an input
    trait that was never set. *)
Inductive value :=
  | VUndefined
  | VNone
  | VBool (b : bool)
  | VInt (n : Z)
  | VStr (s : string)
  | VList (l : list value)
  | VDict (d : gmap string value).

(** Exceptions.  The text carried by interpreter-raised errors is not
    modelled; [ValueError] keeps the argument tuple given at the [raise]
    (a bare [raise ValueError] has none); [EngineError] is whatever an
    external collaborator raises. *)
Inductive exn :=
  | TypeError
  | AttributeError
  | IndexError
  | KeyError (key : value)
  | ValueError (args : list value)
  | EngineError (tag : string).

Inductive res (A : Type) :=
  | Ok (a : A)
  | Raise (e : exn).
Arguments Ok {A} a.
Arguments Raise {A} e.

#[global] Instance res_ret : MRet res := fun _ a => Ok a.
#[global] Instance res_bind : MBind res := fun _ _ f m =>
  match m with
  | Ok a => f a
  | Raise e => Raise e
  end.

(** [a == b] on the fragment; [bool] is a subclass of [int], so
    [True == 1]; dictionaries compare as mappings. *)
Fixpoint py_eq (a b : value) {struct a} : bool :=
  match a, b with
  | VUndefined, VUndefined => true
  | VNone, VNone => true
  | VBool x, VBool y => bool_decide (x = y)
  | VBool x, VInt y => bool_decide (Z.b2z x = y)
  | VInt x, VBool y => bool_decide (x = Z.b2z y)
  | VInt x, VInt y => bool_decide (x = y)
  | VStr x, VStr y => bool_decide (x = y)
  | VList xs, VList ys =>
      (fix go (xs ys : list value) : bool :=
         match xs, ys with
         | [], [] => true
         | x :: xs', y :: ys' => py_eq x y && go xs' ys'
         | _, _ => false
         end) xs ys
  | VDict d1, VDict d2 =>
      bool_decide (size d1 = size d2) &&
      map_fold (fun k v acc =>
                  acc && match d2 !! k with
                         | Some v' => py_eq v v'
                         | None => false
                         end) true d1
  | _, _ => false
  end.

(** [a != b] *)
Definition py_ne (a b : value) : bool := negb (py_eq a b).

(** nipype's [isdefined] *)
Definition isdefined (v : value) : bool :=
  match v with
  | VUndefined => false
  | _ => true
  end.

Fixpoint chars (s : string) : list value :=
  match s with
  | EmptyString => []
  | String a s' => VStr (String a EmptyString) :: chars s'
  end.

(** [iter(v)] run to exhaustion.  A dictionary yields its keys; their order
    is the map's, not the insertion order, which no caller below observes. *)
Definition py_iter (v : value) : res (list value) :=
  match v with
  | VList l => Ok l
  | VStr s => Ok (chars s)
  | VDict d => Ok (VStr <$> (map_to_list d).*1)
  | _ => Raise TypeError
  end.

Fixpoint is_substring (t s : string) : bool :=
  String.prefix t s ||
  match s with
  | EmptyString => false
  | String _ s' => is_substring t s'
  end.

(** [item in container] *)
Definition py_contains (item container : value) : res bool :=
  match container with
  | VDict d =>
      match item with
      | VStr k => Ok (bool_decide (is_Some (d !! k)))
      | VList _ | VDict _ => Raise TypeError
      | _ => Ok false
      end
  | VList l => Ok (existsb (fun x => py_eq x item) l)
  | VStr s =>
      match item with
      | VStr t => Ok (is_substring t s)
      | _ => Raise TypeError
      end
  | _ => Raise TypeError
  end.

(** Sequence indexing with Python's negative indices. *)
Definition py_index {A} (l : list A) (i : Z) : res A :=
  let n := Z.of_nat (length l) in
  let j := if i <? 0 then i + n else i in
  if (0 <=? j) && (j <? n)
  then match l !! Z.to_nat j with
       | Some x => Ok x
       | None => Raise IndexError
       end
  else Raise IndexError.

(** [container[key]] *)
Definition py_getitem (container key : value) : res value :=
  match container with
  | VDict d =>
      match key with
      | VStr k =>
          match d !! k with
          | Some v => Ok v
          | None => Raise (KeyError key)
          end
      | VList _ | VDict _ => Raise TypeError
      | _ => Raise (KeyError key)
      end
  | VList l =>
      match key with
      | VInt i => py_index l i
      | VBool b => py_index l (Z.b2z b)
      | _ => Raise TypeError
      end
  | VStr s =>
      match key with
      | VInt i => py_index (chars s) i
      | VBool b => py_index (chars s) (Z.b2z b)
      | _ => Raise TypeError
      end
  | _ => Raise TypeError
  end.

(** [{**v}]: a fresh dictionary with the items of the mapping [v]. *)
Definition py_unpack (v : value) : res (gmap string value) :=
  match v with
  | VDict d => Ok d
  | _ => Raise TypeError
  end.

(** [d.get(key)], with the default [None]. *)
Definition py_get (d : value) (key : string) : res value :=
  match d with
  | VDict m => Ok (default VNone (m !! key))
  | _ => Raise AttributeError
  end.

End Py.
Export Py.

(** ** The contrast normaliser *)

(** The inner comprehension
    [[row[col] if col in row else 0 for col in all_regressors]]. *)
Definition dense_row (all_regressors row : value) : res value :=
  cols ← py_iter all_regressors;
  cells ← mapM (fun col =>
                  present ← py_contains col row;
                  if present : bool then py_getitem row col
                  else mret (VInt 0)) cols;
  mret (VList cells).

(** One turn of the loop over [contrasts]. *)
Definition prepare_contrast (all_regressors contrast : value) : res value :=
  out ← py_unpack contrast;
  weights ← py_getitem contrast (VStr "weights");
  rows ← py_iter weights;
  dense ← mapM (dense_row all_regressors) rows;
  mret (VDict (<["weights" := VList dense]> out)).

Definition prepare_contrasts (contrasts all_regressors : value) : res value :=
  let contrasts := if isdefined contrasts then contrasts else VList [] in
  cs ← py_iter contrasts;
  out_contrasts ← mapM (prepare_contrast all_regressors) cs;
  mret (VList out_contrasts).

(** A positional call of [prepare_contrasts]: both parameters are required. *)
Definition call_prepare_contrasts (args : list value) : res value :=
  match args with
  | [contrasts; all_regressors] => prepare_contrasts contrasts all_regressors
  | _ => Raise TypeError
  end.

(** ** Helpers of the second-level interface *)

(** [[elem for sublist in x for elem in sublist]] *)
Definition _flatten (x : value) : res (list value) :=
  sublists ← py_iter x;
  elems ← mapM py_iter sublists;
  mret (concat elems).

(** The loop of [_match] over [query.items()], with its early [return False]. *)
Fixpoint match_items (items : list (string * value)) (metadata : value)
  : res bool :=
  match items with
  | [] => Ok true
  | (key, val) :: rest =>
      got ← py_get metadata key;
      if py_ne got val then Ok false else match_items rest metadata
  end.

Definition _match (query metadata : value) : res bool :=
  match query with
  | VDict q => match_items (map_to_list q) metadata
  | _ => Raise AttributeError
  end.

(** The inner [for ... else] of the second-level driver: [find_run] walks
    the zipped (file, metadata) pairs, stops at the first match and does
    [raise ValueError] when the pairs are exhausted; [scan_pool] is the whole
    statement, with the two flattened inputs zipped. *)
Fixpoint find_run (idx : value) (pool : list (value * value)) : res value :=
  match pool with
  | [] => Raise (ValueError [])
  | (fname, metadata) :: rest =>
      hit ← _match idx metadata;
      if hit : bool then Ok fname else find_run idx rest
  end.

Definition scan_pool (idx stat_files stat_metadata : value) : res value :=
  fnames ← _flatten stat_files;
  metas ← _flatten stat_metadata;
  find_run idx (zip fnames metas).

(** The loop "Need a way to group appropriate files": one scan per element of
    [contrasts], the filter being read as [contrasts['entities']] on every
    turn; [files] collects the selected file names. *)
Definition match_runs (contrasts stat_files stat_metadata : value)
  : res (list value) :=
  cs ← py_iter contrasts;
  mapM (fun _ : value =>
          idx ← py_getitem contrasts (VStr "entities");
          scan_pool idx stat_files stat_metadata) cs.

(** [functools.reduce(f, xs)] without an initial value. *)
Definition py_reduce (f : value → value → res value) (xs : value)
  : res value :=
  l ← py_iter xs;
  match l with
  | [] => Raise TypeError
  | x :: rest => foldl (fun acc y => a ← acc; f a y) (Ok x) rest
  end.

(** [d[key] = v] for a string key. *)
Definition py_setitem (d : value) (key : string) (v : value)
  : res (gmap string value) :=
  match d with
  | VDict m => Ok (<[key := v]> m)
  | _ => Raise TypeError
  end.

(** [np.array(files)[mask].tolist()] for a Python [bool] mask over a
    one-dimensional array: [True] adds a leading axis of length one, [False]
    one of length zero. *)
Definition np_bool_index (files : list value) (mask : bool) : value :=
  if mask then VList [VList files] else VList [].

(** A file name list and a metadata list as the values the traits hold. *)
Definition files_value (stat_files : list (list string)) : value :=
  VList ((fun fs => VList (VStr <$> fs)) <$> stat_files).

Definition metadata_value (stat_metadata : list (list (gmap string value)))
  : value :=
  VList ((fun ms => VList (VDict <$> ms)) <$> stat_metadata).

(** ** The second-level driver *)

(** The external collaborators of [SecondLevelModel._run_interface]:
    nistats' [SecondLevelModel] with [fit] and [compute_contrast], the
    statistic image with [to_filename], and the output path
    [os.path.join(cwd, '{}.nii.gz').format(x)].  [fit] receives the [data]
    list and the column handed to [pd.DataFrame({'intercept': ...})]. *)
Class Level2Engine := {
  l2_model : Type;
  l2_stat : Type;
  l2_new : l2_model;
  l2_fit : l2_model → value → value → res l2_model;
  l2_compute_contrast : l2_model → value → res l2_stat;
  l2_to_filename : l2_stat → string → res unit;
  l2_path : string → value → string;
}.

Module SecondLevelModel.

(** [stat_files] is mandatory and holds lists of file names; the other
    inputs are what their traits hold, [VUndefined] when never set. *)
Record InputSpec := {
  stat_files : list (list string);
  stat_metadata : value;
  contrast_info : value;
  contrast_indices : value;
}.

Record OutputSpec := {
  contrast_maps : list string;
  contrast_metadata : list value;
}.

Section driver.
Context {E : Level2Engine}.
(** [fitlins.utils.dict_intersection], whose source is not part of this
    file's module. *)
Variable dict_intersection : value → value → res value.
Variable cwd : string.

(** [out_ents = reduce(dict_intersection, contrast_indices)] followed by
    [out_ents['type'] = 'stat']. *)
Definition output_entities (contrast_indices : value)
  : res (gmap string value) :=
  out_ents ← py_reduce dict_intersection contrast_indices;
  py_setitem out_ents "type" (VStr "stat").

(** The body of the second loop over [contrasts], for one [contrast]. *)
Definition fit_contrast (files : list value) (out_ents : gmap string value)
    (model : l2_model) (contrast : value)
  : res (l2_model * string * value) :=
  intercept ← py_getitem contrast (VStr "weights");
  let mask := py_ne intercept (VInt 0) in
  let data := np_bool_index files mask in
  intercept ← py_getitem intercept (VBool mask);
  model ← l2_fit model data intercept;
  stat_type ← py_getitem contrast (VStr "type");
  stat ← l2_compute_contrast model stat_type;
  let stat_fname := l2_path cwd contrast in
  _ ← l2_to_filename stat stat_fname;
  let metadata := <["contrast" := contrast]> out_ents in
  mret (model, stat_fname, VDict metadata).

Fixpoint fit_contrasts (files : list value) (out_ents : gmap string value)
    (model : l2_model) (contrasts : list value)
  : res (list string * list value) :=
  match contrasts with
  | [] => Ok ([], [])
  | contrast :: rest =>
      '(model, stat_fname, metadata) ←
        fit_contrast files out_ents model contrast;
      '(maps, metas) ← fit_contrasts files out_ents model rest;
      mret (stat_fname :: maps, metadata :: metas)
  end.

Definition _run_interface (inputs : InputSpec) : res OutputSpec :=
  let model := l2_new in
  contrasts ← call_prepare_contrasts [contrast_info inputs];
  files ← match_runs contrasts (files_value (stat_files inputs))
                     (stat_metadata inputs);
  out_ents ← output_entities (contrast_indices inputs);
  cs ← py_iter contrasts;
  '(maps, metas) ← fit_contrasts files out_ents model cs;
  mret {| contrast_maps := maps; contrast_metadata := metas |}.
End driver.

End SecondLevelModel.

(** ** Tables *)

(** A pandas [DataFrame] as far as the driver looks at it: the column labels
    and the rows of cells, [None] being a missing value (NA). *)
Record frame := {
  columns : list string;
  rows : list (list (option value));
}.

(** [df.rename(columns={'condition': 'trial_type', 'amplitude': 'modulation'})] *)
Definition rename_label (label : string) : string :=
  if bool_decide (label = "condition") then "trial_type"
  else if bool_decide (label = "amplitude") then "modulation"
  else label.

Definition rename (df : frame) : frame :=
  {| columns := rename_label <$> columns df; rows := rows df |}.

(** Positions of the columns labelled [label]. *)
Fixpoint positions (label : string) (labels : list string) (i : nat)
  : list nat :=
  match labels with
  | [] => []
  | l :: rest =>
      if bool_decide (l = label) then i :: positions label rest (S i)
      else positions label rest (S i)
  end.

Definition defined_at (row : list (option value)) (j : nat) : bool :=
  match row !! j with
  | Some (Some _) => true
  | _ => false
  end.

(** [df.dropna(subset=[label])]: a label that names no column is a
    [KeyError]; a row stays when all its cells under [label] are defined. *)
Definition dropna (label : string) (df : frame) : res frame :=
  match positions label (columns df) 0 with
  | [] => Raise (KeyError (VList [VStr label]))
  | js => Ok {| columns := columns df;
                rows := filter (fun row => forallb (defined_at row) js)
                               (rows df) |}
  end.

(** ** The first-level driver *)

(** The external collaborators of [FirstLevelModel._run_interface]: nibabel's
    [load] and the volume count [img.shape[3]], [pd.read_hdf], the frame
    times [np.arange(vols) * repetition_time], nistats'
    [make_first_level_design_matrix], [FirstLevelModel(mask=...).fit] and
    [compute_contrast(..., output_type='effect_size')], the writers [to_csv]
    and [to_filename], and the output paths. *)
Class Level1Engine := {
  l1_image : Type;
  l1_times : Type;
  l1_model : Type;
  l1_map : Type;
  l1_load : string → res l1_image;
  l1_vols : l1_image → res Z;
  l1_read_hdf : value → string → res frame;
  l1_frame_times : Z → value → res l1_times;
  l1_make_design_matrix :
    l1_times → option frame → option frame → value → value → res frame;
  l1_to_csv : frame → string → res unit;
  l1_fit : value → l1_image → frame → res l1_model;
  l1_compute_contrast : l1_model → value → value → res l1_map;
  l1_to_filename : l1_map → string → res unit;
  l1_join : string → string → string;
  l1_path : string → value → string;
}.

Module FirstLevelModel.

Record InputSpec := {
  bold_file : string;
  mask_file : value;
  session_info : value;
  contrast_info : value;
}.

Record OutputSpec := {
  contrast_maps : list string;
  contrast_metadata : list value;
  design_matrix : string;
}.

(** [x not in (None, 'None')] *)
Definition supplied (x : value) : bool :=
  negb (py_eq VNone x || py_eq (VStr "None") x).

Section driver.
Context {E : Level1Engine}.
Variable cwd : string.

(** The [sparse] branch: the events handed to the design-matrix builder. *)
Definition sparse_events (info : value) : res (option frame) :=
  path ← py_getitem info (VStr "sparse");
  if supplied path then
    table ← l1_read_hdf path "sparse";
    sparse ← dropna "modulation" (rename table);
    mret (Some sparse)
  else mret None.

(** [None if 'cosine_00' in column_names else 'cosine'] *)
Definition drift_of (column_names : list string) : value :=
  if bool_decide ("cosine_00" ∈ column_names) then VNone else VStr "cosine".

(** The [dense] branch: [(dense, column_names, drift_model)]. *)
Definition dense_regressors (info : value)
  : res (option frame * value * value) :=
  path ← py_getitem info (VStr "dense");
  if supplied path then
    dense ← l1_read_hdf path "dense";
    let column_names := columns dense in
    mret (Some dense, VList (VStr <$> column_names), drift_of column_names)
  else mret (None, VNone, VStr "cosine").

(** The design matrix: both branches, then the call of
    [dm.make_first_level_design_matrix]. *)
Definition build_design (info : value) (vols : Z) : res frame :=
  sparse ← sparse_events info;
  '(dense, column_names, drift_model) ← dense_regressors info;
  tr ← py_getitem info (VStr "repetition_time");
  frame_times ← l1_frame_times vols tr;
  l1_make_design_matrix frame_times sparse dense column_names drift_model.

(** The body of the loop over the prepared contrasts. *)
Definition effect_of (flm : l1_model) (contrast : value)
  : res (string * value) :=
  weights ← py_getitem contrast (VStr "weights");
  type ← py_getitem contrast (VStr "type");
  es ← l1_compute_contrast flm weights type;
  name ← py_getitem contrast (VStr "name");
  let es_fname := l1_path cwd name in
  _ ← l1_to_filename es es_fname;
  mret (es_fname,
        VDict {[ "contrast" := weights; "type" := VStr "effect" ]}).

Definition _run_interface (inputs : InputSpec) : res OutputSpec :=
  let info := session_info inputs in
  img ← l1_load (bold_file inputs);
  vols ← l1_vols img;
  mat ← build_design info vols;
  _ ← l1_to_csv mat "design.tsv";
  let design := l1_join cwd "design.tsv" in
  let mask := if isdefined (mask_file inputs) then mask_file inputs
              else VNone in
  flm ← l1_fit mask img mat;
  contrasts ← call_prepare_contrasts
                [contrast_info inputs; VList (VStr <$> columns mat)];
  cs ← py_iter contrasts;
  effects ← mapM (effect_of flm) cs;
  mret {| contrast_maps := effects.*1;
          contrast_metadata := effects.*2;
          design_matrix := design |}.
End driver.

End FirstLevelModel.

(** ** Reference definitions and example inputs *)

(** The dense row the normaliser computes for a dictionary row. *)
Definition filled (cols : list string) (row : gmap string value)
  : list value :=
  (fun col => default (VInt 0) (row !! col)) <$> cols.

Definition normalised (cols : list string) (c : gmap string value)
    (rws : list (gmap string value)) : gmap string value :=
  <["weights" := VList ((fun row => VList (filled cols row)) <$> rws)]> c.

(** The pool the scan walks: both inputs flattened, then zipped. *)
Definition pool_of (stat_files : list (list string))
    (stat_metadata : list (list (gmap string value)))
  : list (string * gmap string value) :=
  zip (concat stat_files) (concat stat_metadata).

(** In the words of the specification: every filter key is present in the
    record's metadata with an equal value. *)
Definition spec_satisfies (q m : gmap string value) : bool :=
  forallb (fun kv : string * value =>
             match m !! kv.1 with
             | Some v => py_eq v kv.2
             | None => false
             end) (map_to_list q).

(** Example inputs of the matcher. *)
Definition example_files : list (list string) :=
  [["run-1.nii.gz"]; ["run-2.nii.gz"]].
Definition example_metadata : list (list (gmap string value)) :=
  [[ {[ "id" := VInt 1 ]} ]; [ {[ "id" := VInt 2 ]} ]].

(** Two contrasts whose [entities] are filters over the example pool, each
    accepted for one record: the second run first, then the first run. *)
Definition second_run_contrast : gmap string value :=
  {[ "name" := VStr "second"; "type" := VStr "t";
     "entities" := VDict {[ "id" := VInt 2 ]};
     "weights" := VList [VList [VInt 1]] ]}.
Definition first_run_contrast : gmap string value :=
  {[ "name" := VStr "first"; "type" := VStr "t";
     "entities" := VDict {[ "id" := VInt 1 ]};
     "weights" := VList [VList [VInt 1]] ]}.
Definition matching_inputs : SecondLevelModel.InputSpec :=
  {| SecondLevelModel.stat_files := example_files;
     SecondLevelModel.stat_metadata := metadata_value example_metadata;
     SecondLevelModel.contrast_info :=
       VList [VList [VDict second_run_contrast; VDict first_run_contrast]];
     SecondLevelModel.contrast_indices :=
       VList [VDict {[ "id" := VInt 1 ]}; VDict {[ "id" := VInt 2 ]}] |}.

(** Three matched files and the weight vector [1, 0, -1], as the one row of
    a dense contrast. *)
Definition three_files : list (list string) :=
  [["sub-01.nii.gz"; "sub-02.nii.gz"; "sub-03.nii.gz"]].
Definition three_records : list (list (gmap string value)) :=
  [[ {[ "subject" := VStr "01" ]}; {[ "subject" := VStr "02" ]};
     {[ "subject" := VStr "03" ]} ]].
Definition difference_contrast : gmap string value :=
  {[ "name" := VStr "first_vs_last"; "type" := VStr "t";
     "entities" := VDict {[ "subject" := VStr "01" ]};
     "weights" := VList [VList [VInt 1; VInt 0; VInt (-1)]] ]}.
Definition difference_inputs : SecondLevelModel.InputSpec :=
  {| SecondLevelModel.stat_files := three_files;
     SecondLevelModel.stat_metadata := metadata_value three_records;
     SecondLevelModel.contrast_info := VList [VList [VDict difference_contrast]];
     SecondLevelModel.contrast_indices :=
       VList [VDict {[ "subject" := VStr "01" ]}] |}.

(** Two runs of one subject and a two-row contrast over them. *)
Definition runs_contrast : gmap string value :=
  {[ "name" := VStr "runs"; "type" := VStr "F";
     "entities" := VDict {[ "subject" := VStr "01" ]};
     "weights" := VList [VList [VInt 1; VInt 0]; VList [VInt 0; VInt 1]] ]}.
Definition runs_inputs : SecondLevelModel.InputSpec :=
  {| SecondLevelModel.stat_files := [["run-1.nii.gz"; "run-2.nii.gz"]];
     SecondLevelModel.stat_metadata :=
       metadata_value
         [[ {[ "subject" := VStr "01"; "run" := VInt 1 ]};
            {[ "subject" := VStr "01"; "run" := VInt 2 ]} ]];
     SecondLevelModel.contrast_info := VList [VList [VDict runs_contrast]];
     SecondLevelModel.contrast_indices :=
       VList [VDict {[ "subject" := VStr "01"; "run" := VInt 1 ]};
              VDict {[ "subject" := VStr "01"; "run" := VInt 2 ]}] |}.

(** An engine that accepts every call. *)
Definition accepting_engine : Level2Engine :=
  {| l2_model := unit;
     l2_stat := unit;
     l2_new := tt;
     l2_fit := fun _ _ _ => Ok tt;
     l2_compute_contrast := fun _ _ => Ok tt;
     l2_to_filename := fun _ _ => Ok tt;
     l2_path := fun cwd _ => cwd +:+ "/stat.nii.gz" |}.

(** A contrast whose weights are all zero. *)
Definition zero_contrast : gmap string value :=
  {[ "name" := VStr "nothing"; "type" := VStr "F";
     "weights" := VList [VList [VInt 0; VInt 0]; VList [VInt 0; VInt 0]] ]}.



(** Example tables and an engine that serves them. *)
Definition events_table : frame :=
  {| columns := ["onset"; "duration"; "condition"; "amplitude"];
     rows := [ [Some (VInt 0); Some (VInt 2); Some (VStr "go"); Some (VInt 1)];
               [Some (VInt 4); Some (VInt 2); Some (VStr "stop"); None];
               [Some (VInt 8); Some (VInt 2); Some (VStr "go"); Some (VInt 3)] ] |}.

Definition confounds_table : frame :=
  {| columns := ["cosine_00"; "trans_x"];
     rows := [ [Some (VInt 1); Some (VInt 0)];
               [Some (VInt (-1)); Some (VInt 0)] ] |}.

Definition table_engine : Level1Engine :=
  {| l1_image := Z;
     l1_times := Z * value;
     l1_model := unit;
     l1_map := unit;
     l1_load := fun _ => Ok 2;
     l1_vols := fun img => Ok img;
     l1_read_hdf := fun _ key =>
       if bool_decide (key = "sparse") then Ok events_table
       else Ok confounds_table;
     l1_frame_times := fun vols tr => Ok (vols, tr);
     l1_make_design_matrix := fun _ _ dense _ _ =>
       Ok (default {| columns := []; rows := [] |} dense);
     l1_to_csv := fun _ _ => Ok tt;
     l1_fit := fun _ _ _ => Ok tt;
     l1_compute_contrast := fun _ _ _ => Ok tt;
     l1_to_filename := fun _ _ => Ok tt;
     l1_join := fun dir name => dir +:+ "/" +:+ name;
     l1_path := fun dir _ => dir +:+ "/effect.nii.gz" |}.

Definition dense_session : value :=
  VDict {[ "sparse" := VNone; "dense" := VStr "confounds.h5";
           "repetition_time" := VInt 2 ]}.

Definition sparse_session : value :=
  VDict {[ "sparse" := VStr "events.h5"; "dense" := VNone;
           "repetition_time" := VInt 2 ]}.

(** ** Further example inputs *)

(** A contrast with one sparse row, one without weights, and one whose
    weights are already dense rows of numbers. *)
Definition sparse_contrast : gmap string value :=
  {[ "name" := VStr "task"; "type" := VStr "t";
     "weights" := VList [VDict {[ "go" := VInt 2 ]}] ]}.
Definition sparse_contrast_rows : list (gmap string value) :=
  [ {[ "go" := VInt 2 ]} ].
Definition unweighted_contrast : gmap string value :=
  {[ "name" := VStr "broken"; "type" := VStr "t" ]}.
Definition dense_contrast : gmap string value :=
  {[ "name" := VStr "task"; "type" := VStr "t";
     "weights" := VList [VList [VInt 1; VInt (-1)]] ]}.

(** The scalar values: what entity metadata holds. *)
Definition is_scalar (v : value) : bool :=
  match v with
  | VNone | VBool _ | VInt _ | VStr _ => true
  | _ => false
  end.

(** An engine whose every call fails. *)
Definition failing_engine : Level1Engine :=
  {| l1_image := unit;
     l1_times := unit;
     l1_model := unit;
     l1_map := unit;
     l1_load := fun _ => Raise (EngineError "load");
     l1_vols := fun _ => Raise (EngineError "shape");
     l1_read_hdf := fun _ _ => Raise (EngineError "read_hdf");
     l1_frame_times := fun _ _ => Raise (EngineError "arange");
     l1_make_design_matrix := fun _ _ _ _ _ => Raise (EngineError "design");
     l1_to_csv := fun _ _ => Raise (EngineError "to_csv");
     l1_fit := fun _ _ _ => Raise (EngineError "fit");
     l1_compute_contrast := fun _ _ _ => Raise (EngineError "contrast");
     l1_to_filename := fun _ _ => Raise (EngineError "to_filename");
     l1_join := fun dir name => dir +:+ "/" +:+ name;
     l1_path := fun dir _ => dir +:+ "/effect.nii.gz" |}.

(** A table with neither an amplitude nor a modulation column. *)
Definition onsets_table : frame :=
  {| columns := ["onset"; "duration"; "condition"];
     rows := [ [Some (VInt 0); Some (VInt 2); Some (VStr "go")] ] |}.

(** An engine that serves [onsets_table] as the sparse table. *)
Definition onsets_engine : Level1Engine :=
  {| l1_image := Z;
     l1_times := Z * value;
     l1_model := unit;
     l1_map := unit;
     l1_load := fun _ => Ok 2;
     l1_vols := fun img => Ok img;
     l1_read_hdf := fun _ _ => Ok onsets_table;
     l1_frame_times := fun vols tr => Ok (vols, tr);
     l1_make_design_matrix := fun _ _ dense _ _ =>
       Ok (default {| columns := []; rows := [] |} dense);
     l1_to_csv := fun _ _ => Ok tt;
     l1_fit := fun _ _ _ => Ok tt;
     l1_compute_contrast := fun _ _ _ => Ok tt;
     l1_to_filename := fun _ _ => Ok tt;
     l1_join := fun dir name => dir +:+ "/" +:+ name;
     l1_path := fun dir _ => dir +:+ "/effect.nii.gz" |}.

(** The example engine with maps named after the contrast, and a session
    with two contrasts over the columns of the dense table. *)
Definition name_of (name : value) : string :=
  match name with
  | VStr s => s
  | _ => "None"
  end.

Definition named_engine : Level1Engine :=
  {| l1_image := Z;
     l1_times := Z * value;
     l1_model := unit;
     l1_map := unit;
     l1_load := fun _ => Ok 2;
     l1_vols := fun img => Ok img;
     l1_read_hdf := fun _ key =>
       if bool_decide (key = "sparse") then Ok events_table
       else Ok confounds_table;
     l1_frame_times := fun vols tr => Ok (vols, tr);
     l1_make_design_matrix := fun _ _ dense _ _ =>
       Ok (default {| columns := []; rows := [] |} dense);
     l1_to_csv := fun _ _ => Ok tt;
     l1_fit := fun _ _ _ => Ok tt;
     l1_compute_contrast := fun _ _ _ => Ok tt;
     l1_to_filename := fun _ _ => Ok tt;
     l1_join := fun dir name => dir +:+ "/" +:+ name;
     l1_path := fun dir name => dir +:+ "/" +:+ name_of name +:+ ".nii.gz" |}.

Definition motion_contrast : gmap string value :=
  {[ "name" := VStr "motion"; "type" := VStr "t";
     "weights" := VList [VDict {[ "trans_x" := VInt 1 ]}] ]}.
Definition drift_contrast : gmap string value :=
  {[ "name" := VStr "drift"; "type" := VStr "F";
     "weights" := VList [VDict {[ "cosine_00" := VInt 1 ]}] ]}.
Definition two_contrast_inputs : FirstLevelModel.InputSpec :=
  {| FirstLevelModel.bold_file := "bold.nii.gz";
     FirstLevelModel.mask_file := VUndefined;
     FirstLevelModel.session_info := dense_session;
     FirstLevelModel.contrast_info :=
       VList [VDict motion_contrast; VDict drift_contrast] |}.

(** A key-wise intersection, used to instantiate the parameter
    [dict_intersection] in examples. *)
Definition example_intersection (a b : value) : res value :=
  match a, b with
  | VDict d1, VDict d2 =>
      Ok (VDict (filter (fun kv : string * value =>
                           Is_true match d2 !! kv.1 with
                                   | Some v => py_eq v kv.2
                                   | None => false
                                   end) d1))
  | _, _ => Raise AttributeError
  end.

(** * Properties *)

(** ** The error monad *)

Lemma mapM_Ok {A B} (f : A → res B) (g : A → B) (l : list A) :
  (∀ x, x ∈ l → f x = Ok (g x)) → mapM f l = Ok (g <$> l).
Proof.
  induction l as [|x l IH]; intros Hf; [done|].
  cbn. rewrite (Hf x) by left. cbn.
  rewrite IH; [done|]. intros y Hy. apply Hf. by right.
Qed.

Lemma mapM_cons {A B} (f : A → res B) (x : A) (l : list A) :
  mapM f (x :: l) = y ← f x; k ← mapM f l; mret (y :: k).
Proof. reflexivity. Qed.

Lemma mapM_Raise_head {A B} (f : A → res B) (x : A) (l : list A) (e : exn) :
  f x = Raise e → mapM f (x :: l) = Raise e.
Proof. intros Hx. cbn. by rewrite Hx. Qed.

Lemma py_index_lookup {A} (l : list A) (i : nat) (x : A) :
  l !! i = Some x → py_index l (Z.of_nat i) = Ok x.
Proof.
  intros H. unfold py_index.
  pose proof (lookup_lt_Some _ _ _ H) as Hlt.
  destruct (Z.ltb_spec (Z.of_nat i) 0) as [?|_]; [lia|].
  destruct (Z.leb_spec 0 (Z.of_nat i)) as [_|?]; [|lia].
  destruct (Z.ltb_spec (Z.of_nat i) (Z.of_nat (length l))) as [_|?]; [|lia].
  cbn. by rewrite Nat2Z.id, H.
Qed.

(** ** Contrast normalisation *)

Lemma dense_row_filled (cols : list string) (row : gmap string value) :
  dense_row (VList (VStr <$> cols)) (VDict row) = Ok (VList (filled cols row)).
Proof.
  unfold dense_row. cbn.
  rewrite (mapM_Ok _ (fun v => match v with
                               | VStr col => default (VInt 0) (row !! col)
                               | _ => VNone
                               end)).
  - cbn. by rewrite <- list_fmap_compose.
  - intros v [col [-> _]]%list_elem_of_fmap. cbn.
    by destruct (row !! col) as [w|] eqn:Hcol; cbn.
Qed.

Lemma filled_length cols row : length (filled cols row) = length cols.
Proof. apply length_fmap. Qed.

Lemma filled_lookup cols row (j : nat) col :
  cols !! j = Some col →
  filled cols row !! j = Some (default (VInt 0) (row !! col)).
Proof. intros H. unfold filled. by rewrite list_lookup_fmap, H. Qed.

Lemma filled_insert_absent cols row k v :
  k ∉ cols → filled cols (<[k := v]> row) = filled cols row.
Proof.
  intros Hk. unfold filled. apply list_fmap_ext.
  intros i col Hcol. rewrite lookup_insert_ne; [done|].
  intros ->. apply Hk. by eapply list_elem_of_lookup_2.
Qed.

Lemma prepare_contrast_dict cols (c : gmap string value)
    (rws : list (gmap string value)) :
  c !! "weights" = Some (VList (VDict <$> rws)) →
  prepare_contrast (VList (VStr <$> cols)) (VDict c) =
  Ok (VDict (<["weights" := VList ((fun row => VList (filled cols row)) <$> rws)]> c)).
Proof.
  intros Hw. unfold prepare_contrast. cbn. rewrite Hw. cbn.
  rewrite (mapM_Ok _ (fun v => match v with
                               | VDict row => VList (filled cols row)
                               | _ => VNone
                               end)).
  - cbn. by rewrite <- list_fmap_compose.
  - intros v [row [-> _]]%list_elem_of_fmap. apply dense_row_filled.
Qed.

Lemma prepare_contrasts_dicts cols (cs : list (gmap string value))
    (rowss : list (list (gmap string value))) :
  Forall2 (fun c rws => c !! "weights" = Some (VList (VDict <$> rws))) cs rowss →
  prepare_contrasts (VList (VDict <$> cs)) (VList (VStr <$> cols)) =
  Ok (VList (VDict <$> zip_with (normalised cols) cs rowss)).
Proof.
  intros H. unfold prepare_contrasts. cbn.
  assert (mapM (prepare_contrast (VList (VStr <$> cols))) (VDict <$> cs) =
          Ok (VDict <$> zip_with (normalised cols) cs rowss)) as ->; [|done].
  induction H as [|c rws cs rowss Hc _ IH]; [done|].
  rewrite fmap_cons, mapM_cons, (prepare_contrast_dict _ _ _ Hc), IH.
  reflexivity.
Qed.

(** C2. Normalisation of a sequence of contrast specifications against an
    ordered column list returns one contrast per input contrast, in the same
    order; each is the input contrast with every weights row replaced by a
    dense row of length [len(columns)], whose j-th entry is the row's value
    under [columns[j]] when the row has that key and [0] otherwise.  A row
    key that is not among the columns raises nothing and changes nothing. *)
Theorem prepare_contrasts_dense (cs : list (gmap string value))
    (rowss : list (list (gmap string value))) (cols : list string) :
  Forall2 (fun c rws => c !! "weights" = Some (VList (VDict <$> rws))) cs rowss →
  ∃ outs : list (gmap string value),
    prepare_contrasts (VList (VDict <$> cs)) (VList (VStr <$> cols)) =
      Ok (VList (VDict <$> outs)) ∧
    length outs = length cs ∧
    ∀ (i : nat) c rws, cs !! i = Some c → rowss !! i = Some rws →
      ∃ dense : list (list value),
        outs !! i = Some (<["weights" := VList (VList <$> dense)]> c) ∧
        length dense = length rws ∧
        ∀ (r : nat) row, rws !! r = Some row →
          ∃ d : list value,
            dense !! r = Some d ∧
            length d = length cols ∧
            (∀ (j : nat) col, cols !! j = Some col →
               d !! j = Some (default (VInt 0) (row !! col))) ∧
            (∀ k v, k ∉ cols →
               dense_row (VList (VStr <$> cols)) (VDict (<[k := v]> row)) =
                 Ok (VList d)).
Proof.
  intros H. exists (zip_with (normalised cols) cs rowss).
  split; [by apply prepare_contrasts_dicts|].
  split.
  { rewrite length_zip_with. apply Forall2_length in H. lia. }
  intros i c rws Hc Hrws. exists (filled cols <$> rws).
  split.
  { rewrite lookup_zip_with, Hc. cbn. rewrite Hrws. cbn.
    unfold normalised. by rewrite <- list_fmap_compose. }
  split; [by rewrite length_fmap|].
  intros r row Hrow. exists (filled cols row).
  split; [by rewrite list_lookup_fmap, Hrow|].
  split; [apply filled_length|].
  split; [intros j col; apply filled_lookup|].
  intros k v Hk. by rewrite dense_row_filled, filled_insert_absent.
Qed.

Lemma prepare_contrasts_dense_witness :
  let c : gmap string value :=
    {[ "name" := VStr "a";
       "weights" := VList [VDict {[ "x" := VInt 2; "zz" := VInt 5 ]}] ]} in
  let rws : list (gmap string value) := [ {[ "x" := VInt 2; "zz" := VInt 5 ]} ] in
  Forall2 (fun c rws => c !! "weights" = Some (VList (VDict <$> rws))) [c] [rws] ∧
  ∃ outs : list (gmap string value),
    prepare_contrasts (VList (VDict <$> [c])) (VList (VStr <$> ["y"; "x"])) =
      Ok (VList (VDict <$> outs)) ∧
    length outs = length [c] ∧
    ∀ (i : nat) c' rws', [c] !! i = Some c' → [rws] !! i = Some rws' →
      ∃ dense : list (list value),
        outs !! i = Some (<["weights" := VList (VList <$> dense)]> c') ∧
        length dense = length rws' ∧
        ∀ (r : nat) row, rws' !! r = Some row →
          ∃ d : list value,
            dense !! r = Some d ∧
            length d = length ["y"; "x"] ∧
            (∀ (j : nat) col, ["y"; "x"] !! j = Some col →
               d !! j = Some (default (VInt 0) (row !! col))) ∧
            (∀ k v, k ∉ ["y"; "x"] →
               dense_row (VList (VStr <$> ["y"; "x"])) (VDict (<[k := v]> row)) =
                 Ok (VList d)).
Proof.
  intros c rws.
  assert (Forall2 (fun c rws => c !! "weights" = Some (VList (VDict <$> rws)))
            [c] [rws]) as H.
  { repeat constructor. }
  split; [exact H|]. exact (prepare_contrasts_dense [c] [rws] ["y"; "x"] H).
Defined.

(** C9. Normalisation of an undefined or empty contrast sequence is the empty
    sequence, for any column list, and raises nothing. *)
Theorem prepare_contrasts_undefined_or_empty (all_regressors : value) :
  prepare_contrasts VUndefined all_regressors = Ok (VList []) ∧
  prepare_contrasts (VList []) all_regressors = Ok (VList []).
Proof. split; reflexivity. Qed.

(** ** Matching *)

Lemma match_items_dict items (m : gmap string value) :
  match_items items (VDict m) =
  Ok (forallb (fun kv : string * value =>
                 py_eq (default VNone (m !! kv.1)) kv.2) items).
Proof.
  induction items as [|[k v] items IH]; [done|].
  cbn. unfold py_ne. destruct (py_eq _ v); cbn; [exact IH|done].
Qed.

Lemma _match_true (q m : gmap string value) :
  _match (VDict q) (VDict m) = Ok true ↔
  ∀ k v, q !! k = Some v → py_eq (default VNone (m !! k)) v = true.
Proof.
  cbn. rewrite match_items_dict. split.
  - intros [= H] k v Hk. rewrite forallb_forall in H.
    apply (H (k, v)). apply list_elem_of_In. by apply elem_of_map_to_list.
  - intros H. f_equal. apply forallb_forall. intros [k v] Hkv.
    apply H. apply elem_of_map_to_list. by apply list_elem_of_In.
Qed.

Lemma _match_total (q m : gmap string value) :
  ∃ b, _match (VDict q) (VDict m) = Ok b.
Proof. cbn. rewrite match_items_dict. eauto. Qed.

(** C10. A filter key whose value is [None] is satisfied by a record whose
    metadata lacks that key: for a filter with [k: None], a record without
    [k] and the same record with [k] set to [None] get the same answer, and
    the filter [{k: None}] alone accepts a record without [k]. *)
Theorem match_none_is_absent (q m : gmap string value) (k : string) :
  q !! k = Some VNone →
  _match (VDict q) (VDict (delete k m)) =
    _match (VDict q) (VDict (<[k := VNone]> m)) ∧
  _match (VDict {[k := VNone]}) (VDict (delete k m)) = Ok true.
Proof.
  intros Hk. split.
  - cbn. rewrite !match_items_dict. f_equal.
    assert (∀ kv : string * value, In kv (map_to_list q) →
              py_eq (default VNone (delete k m !! kv.1)) kv.2 =
              py_eq (default VNone (<[k := VNone]> m !! kv.1)) kv.2) as Hext.
    { intros [k' v] Hin. cbn.
      apply list_elem_of_In, elem_of_map_to_list in Hin.
      destruct (decide (k' = k)) as [->|Hne].
      - by rewrite lookup_delete_eq, lookup_insert_eq.
      - by rewrite lookup_delete_ne, lookup_insert_ne. }
    induction (map_to_list q) as [|kv l IH]; [done|].
    cbn. rewrite Hext by (by left). f_equal. apply IH.
    intros kv' Hin. apply Hext. by right.
  - apply _match_true. intros k' v [-> <-]%lookup_singleton_Some.
    by rewrite lookup_delete_eq.
Qed.

Lemma match_none_is_absent_witness :
  ({[ "run" := VNone; "subject" := VStr "01" ]} : gmap string value) !! "run"
    = Some VNone ∧
  (_match (VDict {[ "run" := VNone; "subject" := VStr "01" ]})
          (VDict (delete "run" {[ "subject" := VStr "01" ]})) =
   _match (VDict {[ "run" := VNone; "subject" := VStr "01" ]})
          (VDict (<["run" := VNone]> {[ "subject" := VStr "01" ]})) ∧
   _match (VDict {[ "run" := VNone ]})
          (VDict (delete "run" {[ "subject" := VStr "01" ]})) = Ok true).
Proof.
  split; [reflexivity|].
  apply (match_none_is_absent
           {[ "run" := VNone; "subject" := VStr "01" ]}
           {[ "subject" := VStr "01" ]} "run").
  reflexivity.
Defined.

Lemma _flatten_lists (ls : list (list value)) :
  _flatten (VList (VList <$> ls)) = Ok (concat ls).
Proof.
  unfold _flatten. cbn.
  rewrite (mapM_Ok _ (fun v => match v with VList l => l | _ => [] end)).
  - cbn. rewrite <- list_fmap_compose. by rewrite list_fmap_id.
  - by intros v [l [-> _]]%list_elem_of_fmap.
Qed.

Lemma concat_fmap_fmap {A B} (f : A → B) (ls : list (list A)) :
  concat ((fmap f : list A → list B) <$> ls) = f <$> concat ls.
Proof.
  induction ls as [|l ls IH]; [done|]. cbn. by rewrite fmap_app, IH.
Qed.

Lemma scan_pool_typed idx (sf : list (list string))
    (sm : list (list (gmap string value))) :
  scan_pool idx (files_value sf) (metadata_value sm) =
  find_run idx (prod_map VStr VDict <$> pool_of sf sm).
Proof.
  assert (files_value sf =
          VList (VList <$> ((fmap VStr : list string → list value) <$> sf)))
    as -> by (unfold files_value; by rewrite <- list_fmap_compose).
  assert (metadata_value sm =
          VList (VList <$> ((fmap VDict : list (gmap string value) → list value)
                              <$> sm)))
    as -> by (unfold metadata_value; by rewrite <- list_fmap_compose).
  unfold scan_pool, pool_of.
  rewrite !_flatten_lists. cbn. rewrite !concat_fmap_fmap. f_equal.
  generalize (concat sf) (concat sm). intros fs.
  induction fs as [|f fs IH]; intros [|m ms]; cbn; [done..|].
  f_equal. apply IH.
Qed.

Lemma find_run_cons (q : gmap string value) f (m : gmap string value) pool :
  find_run (VDict q) ((VStr f, VDict m) :: pool) =
  hit ← _match (VDict q) (VDict m);
  if hit : bool then Ok (VStr f) else find_run (VDict q) pool.
Proof. reflexivity. Qed.

Lemma find_run_first (q : gmap string value)
    (pool : list (string * gmap string value)) :
  (∃ f m, (f, m) ∈ pool ∧ _match (VDict q) (VDict m) = Ok true) →
  ∃ (i : nat) f m,
    pool !! i = Some (f, m) ∧
    _match (VDict q) (VDict m) = Ok true ∧
    (∀ (j : nat) f' m', (j < i)%nat → pool !! j = Some (f', m') →
       _match (VDict q) (VDict m') = Ok false) ∧
    find_run (VDict q) (prod_map VStr VDict <$> pool) = Ok (VStr f).
Proof.
  induction pool as [|[f0 m0] pool IH]; intros (f & m & Hin & Hm).
  { by apply elem_of_nil in Hin. }
  rewrite fmap_cons. cbn [prod_map fst snd]. rewrite find_run_cons.
  destruct (_match_total q m0) as [[] H0]; rewrite H0; cbn.
  - exists 0%nat, f0, m0. split_and!; [done..| |done]. intros; lia.
  - apply elem_of_cons in Hin as [Heq|Hin].
    { injection Heq as -> ->. rewrite H0 in Hm. discriminate Hm. }
    destruct IH as (i & f1 & m1 & Hi & Hm1 & Hbefore & Hrun); [by eauto|].
    exists (S i), f1, m1. split_and!; [done..| |done].
    intros [|j] f' m' Hlt Hj; simplify_eq/=; [done|].
    apply (Hbefore j f'); [lia|done].
Qed.





(** ** The second-level driver *)

(** [prepare_contrasts(self.inputs.contrast_info)] passes one argument to a
    function of two required parameters. *)
Lemma call_prepare_contrasts_one_argument (contrast_info : value) :
  call_prepare_contrasts [contrast_info] = Raise TypeError.
Proof. reflexivity. Qed.

(** Hence the driver stops at its second statement, whatever its inputs. *)
Lemma second_level_raises (E : Level2Engine)
    (dict_intersection : value → value → res value) (cwd : string)
    (inputs : SecondLevelModel.InputSpec) :
  SecondLevelModel._run_interface dict_intersection cwd inputs
    = Raise TypeError.
Proof. reflexivity. Qed.

(** The loop over a list of contrasts reads the filter from the list itself,
    which a string cannot index. *)
Lemma match_runs_list (c : value) (cs : list value)
    (stat_files stat_metadata : value) :
  match_runs (VList (c :: cs)) stat_files stat_metadata = Raise TypeError.
Proof. reflexivity. Qed.

(** C1, on the code.  With the two records of the example pool and two
    filters, each accepted for one record, the driver returns no record per
    filter: it raises [TypeError] at the call of [prepare_contrasts].  The
    matching loop on its own raises [TypeError] for every list of contrasts
    that is not empty, because it reads the filter as [contrasts['entities']]
    from the list and not from the contrast of the turn.  Only the scans it
    would run behave as the matcher should: for the two filters they select
    the second file and then the first, in the order of the filters. *)
Theorem second_level_matching_fails (E : Level2Engine)
    (dict_intersection : value → value → res value) (cwd : string) :
  SecondLevelModel._run_interface dict_intersection cwd matching_inputs
    = Raise TypeError ∧
  (∀ (c : value) (cs : list value) (stat_files stat_metadata : value),
     match_runs (VList (c :: cs)) stat_files stat_metadata = Raise TypeError) ∧
  match_runs (VList [VDict second_run_contrast; VDict first_run_contrast])
             (files_value example_files) (metadata_value example_metadata)
    = Raise TypeError ∧
  scan_pool (VDict {[ "id" := VInt 2 ]}) (files_value example_files)
            (metadata_value example_metadata) = Ok (VStr "run-2.nii.gz") ∧
  scan_pool (VDict {[ "id" := VInt 1 ]}) (files_value example_files)
            (metadata_value example_metadata) = Ok (VStr "run-1.nii.gz").
Proof.
  split; [apply second_level_raises|].
  split; [intros c cs sf sm; apply match_runs_list|].
  split; [apply match_runs_list|].
  split; reflexivity.
Qed.

(** The statements of the second loop for a contrast whose weights are a
    list of at least two entries: the comparison [intercept != 0] of a list
    with [0] is the single [True], so [data] is all the files under one more
    list level and [intercept] is the entry at index one. *)
Lemma fit_contrast_list (E : Level2Engine) (cwd : string)
    (files : list value) (out_ents c : gmap string value)
    (model : l2_model) (w0 w1 : value) (ws : list value) (t : value) :
  c !! "weights" = Some (VList (w0 :: w1 :: ws)) →
  c !! "type" = Some t →
  SecondLevelModel.fit_contrast cwd files out_ents model (VDict c) =
    model' ← l2_fit model (VList [VList files]) w1;
    stat ← l2_compute_contrast model' t;
    _ ← l2_to_filename stat (l2_path cwd (VDict c));
    mret (model', l2_path cwd (VDict c),
          VDict (<["contrast" := VDict c]> out_ents)).
Proof.
  intros Hw Ht. unfold SecondLevelModel.fit_contrast.
  cbn -[py_index]. rewrite Hw, Ht. cbn -[py_index].
  change 1 with (Z.of_nat 1).
  rewrite (py_index_lookup (w0 :: w1 :: ws) 1 w1) by done.
  reflexivity.
Qed.

(** The same statements for weights of a single row: the entry at index one
    does not exist. *)
Lemma fit_contrast_one_row (E : Level2Engine) (cwd : string)
    (files : list value) (out_ents c : gmap string value)
    (model : l2_model) (w0 : value) :
  c !! "weights" = Some (VList [w0]) →
  SecondLevelModel.fit_contrast cwd files out_ents model (VDict c)
    = Raise IndexError.
Proof.
  intros Hw. unfold SecondLevelModel.fit_contrast. cbn. by rewrite Hw.
Qed.

(** C4, on the code.  With three matched files and the weights [1, 0, -1]
    the driver raises [TypeError] at the call of [prepare_contrasts] and
    selects nothing.  The selection statements on their own do not select by
    weight either: for the one-row weights they raise [IndexError], because
    [intercept != 0] is one [True] for the whole list and is then used as the
    index [1]. *)
Theorem second_level_selection_fails (E : Level2Engine)
    (dict_intersection : value → value → res value) (cwd : string)
    (out_ents : gmap string value) (model : l2_model) :
  SecondLevelModel._run_interface dict_intersection cwd difference_inputs
    = Raise TypeError ∧
  SecondLevelModel.fit_contrast cwd (VStr <$> concat three_files) out_ents
      model (VDict difference_contrast) = Raise IndexError.
Proof.
  split; [apply second_level_raises|].
  by apply fit_contrast_one_row with (w0 := VList [VInt 1; VInt 0; VInt (-1)]).
Qed.

(** C6, on the code.  The driver raises [TypeError] at the call of
    [prepare_contrasts] and attaches no metadata.  The statements that build
    the metadata store, under the key [contrast], the whole contrast mapping
    and not its weights. *)
Theorem second_level_metadata_fails (E : Level2Engine)
    (dict_intersection : value → value → res value) (cwd : string)
    (files : list value) (out_ents : gmap string value) (model : l2_model) :
  SecondLevelModel._run_interface dict_intersection cwd runs_inputs
    = Raise TypeError ∧
  SecondLevelModel.fit_contrast cwd files out_ents model (VDict runs_contrast) =
    model' ← l2_fit model (VList [VList files]) (VList [VInt 0; VInt 1]);
    stat ← l2_compute_contrast model' (VStr "F");
    _ ← l2_to_filename stat (l2_path cwd (VDict runs_contrast));
    mret (model', l2_path cwd (VDict runs_contrast),
          VDict (<["contrast" := VDict runs_contrast]> out_ents)).
Proof.
  split; [apply second_level_raises|].
  by apply fit_contrast_list with (w0 := VList [VInt 1; VInt 0]) (ws := []).
Qed.




(** ** The first-level driver *)

Lemma positions_absent label labels (i : nat) :
  label ∉ labels → positions label labels i = [].
Proof.
  revert i. induction labels as [|l labels IH]; intros i Hnot; [done|].
  cbn. rewrite bool_decide_eq_false_2.
  - apply IH. intros Hin. apply Hnot. by right.
  - intros ->. apply Hnot. by left.
Qed.

Lemma positions_present label labels (i : nat) :
  label ∈ labels → positions label labels i ≠ [].
Proof.
  revert i. induction labels as [|l labels IH]; intros i Hin.
  { by apply elem_of_nil in Hin. }
  cbn. destruct (decide (l = label)) as [->|Hne].
  - by rewrite bool_decide_eq_true_2.
  - rewrite bool_decide_eq_false_2 by done. apply IH.
    apply elem_of_cons in Hin as [->|Hin]; [done|exact Hin].
Qed.

Lemma dropna_present label (df : frame) :
  label ∈ columns df →
  dropna label df =
  Ok {| columns := columns df;
        rows := filter (fun row =>
                          forallb (defined_at row)
                                  (positions label (columns df) 0))
                       (rows df) |}.
Proof.
  intros Hin. unfold dropna.
  pose proof (positions_present label (columns df) 0 Hin) as Hne.
  by destruct (positions label (columns df) 0).
Qed.

Lemma positions_spec label labels (i n : nat) :
  n ∈ positions label labels i ↔
  ∃ j : nat, n = (i + j)%nat ∧ labels !! j = Some label.
Proof.
  revert i. induction labels as [|l labels IH]; intros i; cbn.
  { split; [by intros ?%elem_of_nil|by intros (j & _ & ?)]. }
  destruct (decide (l = label)) as [->|Hne].
  - rewrite bool_decide_eq_true_2 by done. rewrite elem_of_cons, IH. split.
    + intros [->|(j & -> & Hj)].
      * exists 0%nat. split; [lia|done].
      * exists (S j). split; [lia|done].
    + intros ([|j] & -> & Hj).
      * left. lia.
      * right. exists j. split; [lia|done].
  - rewrite bool_decide_eq_false_2 by done. rewrite IH. split.
    + intros (j & -> & Hj). exists (S j). split; [lia|done].
    + intros ([|j] & -> & Hj); cbn in Hj; [congruence|].
      exists j. split; [lia|done].
Qed.

(** A row passes the test of [dropna] when each of its cells under a column
    with the given label holds a value. *)
Lemma dropna_test label labels (row : list (option value)) :
  forallb (defined_at row) (positions label labels 0) = true ↔
  ∀ j : nat, labels !! j = Some label → ∃ v, row !! j = Some (Some v).
Proof.
  rewrite forallb_forall. split.
  - intros H j Hj.
    assert (defined_at row j = true) as Hd.
    { apply H, list_elem_of_In, positions_spec. eauto. }
    unfold defined_at in Hd.
    destruct (row !! j) as [[v|]|]; [by exists v|done..].
  - intros H n Hn. apply list_elem_of_In, positions_spec in Hn
      as (j & -> & Hj).
    destruct (H j Hj) as [v Hv]. unfold defined_at. cbn. by rewrite Hv.
Qed.

Lemma renamed_modulation (labels : list string) :
  "modulation" ∈ rename_label <$> labels ↔
  "amplitude" ∈ labels ∨ "modulation" ∈ labels.
Proof.
  rewrite list_elem_of_fmap. split.
  - intros (l & Hl & Hin). revert Hl. unfold rename_label.
    destruct (decide (l = "condition")) as [->|H1].
    { by rewrite bool_decide_eq_true_2. }
    rewrite (bool_decide_eq_false_2 _ H1).
    destruct (decide (l = "amplitude")) as [->|H2]; [by left|].
    rewrite (bool_decide_eq_false_2 _ H2). intros <-. by right.
  - intros [H|H]; [by exists "amplitude"|by exists "modulation"].
Qed.

(** The call of the design-matrix builder, once both branches and the frame
    times are known. *)
Lemma build_design_call (E : Level1Engine) (info tr : value) (vols : Z)
    (sparse dense : option frame) (names drift : value) (ft : l1_times) :
  FirstLevelModel.sparse_events info = Ok sparse →
  FirstLevelModel.dense_regressors info = Ok (dense, names, drift) →
  py_getitem info (VStr "repetition_time") = Ok tr →
  l1_frame_times vols tr = Ok ft →
  FirstLevelModel.build_design info vols =
  l1_make_design_matrix ft sparse dense names drift.
Proof.
  intros Hs Hd Htr Hft. unfold FirstLevelModel.build_design.
  rewrite Hs. cbn. rewrite Hd. cbn. rewrite Htr. cbn. by rewrite Hft.
Qed.

(** C5. The drift-model argument handed to the design-matrix builder is
    [None] when a dense table is supplied and has a column [cosine_00], and
    ['cosine'] when the supplied dense table has no such column or when no
    dense table is supplied ([info['dense']] is [None] or ['None']). *)
Theorem drift_model_policy (E : Level1Engine) (info path tr : value)
    (vols : Z) (sparse : option frame) (ft : l1_times) :
  FirstLevelModel.sparse_events info = Ok sparse →
  py_getitem info (VStr "dense") = Ok path →
  py_getitem info (VStr "repetition_time") = Ok tr →
  l1_frame_times vols tr = Ok ft →
  (∀ dense, FirstLevelModel.supplied path = true →
     l1_read_hdf path "dense" = Ok dense →
     "cosine_00" ∈ columns dense →
     FirstLevelModel.build_design info vols =
     l1_make_design_matrix ft sparse (Some dense)
       (VList (VStr <$> columns dense)) VNone) ∧
  (∀ dense, FirstLevelModel.supplied path = true →
     l1_read_hdf path "dense" = Ok dense →
     "cosine_00" ∉ columns dense →
     FirstLevelModel.build_design info vols =
     l1_make_design_matrix ft sparse (Some dense)
       (VList (VStr <$> columns dense)) (VStr "cosine")) ∧
  (FirstLevelModel.supplied path = false →
     FirstLevelModel.build_design info vols =
     l1_make_design_matrix ft sparse None VNone (VStr "cosine")).
Proof.
  intros Hs Hp Htr Hft. split_and!.
  - intros dense Hsup Hread Hin.
    apply build_design_call with (tr := tr); [done| |done..].
    unfold FirstLevelModel.dense_regressors. rewrite Hp. cbn.
    rewrite Hsup, Hread. cbn. unfold FirstLevelModel.drift_of.
    by rewrite bool_decide_eq_true_2.
  - intros dense Hsup Hread Hin.
    apply build_design_call with (tr := tr); [done| |done..].
    unfold FirstLevelModel.dense_regressors. rewrite Hp. cbn.
    rewrite Hsup, Hread. cbn. unfold FirstLevelModel.drift_of.
    by rewrite bool_decide_eq_false_2.
  - intros Hsup.
    apply build_design_call with (tr := tr); [done| |done..].
    unfold FirstLevelModel.dense_regressors. rewrite Hp. cbn.
    by rewrite Hsup.
Qed.

(** C8, as the code has it.  The labels [condition] and [amplitude] are
    renamed to [trial_type] and [modulation], every other label is left as
    it is.  A supplied sparse table that has a column [amplitude] or
    [modulation] reaches the design-matrix builder with its labels renamed
    and with the rows that hold a value in every cell under a column then
    called [modulation]: a row with a missing value (NA) there is dropped,
    every other row is passed on unchanged, in the order of the table.  A
    supplied table with neither column does not reach the builder: [dropna]
    raises [KeyError(['modulation'])]. *)
Theorem sparse_events_prepared (E : Level1Engine) (info path : value)
    (table : frame) :
  py_getitem info (VStr "sparse") = Ok path →
  FirstLevelModel.supplied path = true →
  l1_read_hdf path "sparse" = Ok table →
  rename_label "condition" = "trial_type" ∧
  rename_label "amplitude" = "modulation" ∧
  (∀ label, label ≠ "condition" → label ≠ "amplitude" →
     rename_label label = label) ∧
  ("amplitude" ∈ columns table ∨ "modulation" ∈ columns table →
   ∃ (events : frame) (keep : list (option value) → bool),
     FirstLevelModel.sparse_events info = Ok (Some events) ∧
     columns events = rename_label <$> columns table ∧
     rows events = filter (fun row => keep row) (rows table) ∧
     (∀ row, keep row = true ↔
        ∀ j : nat, columns events !! j = Some "modulation" →
                   ∃ v, row !! j = Some (Some v)) ∧
     (∀ row (j : nat), columns events !! j = Some "modulation" →
        row !! j = Some None → row ∉ rows events) ∧
     (∀ row, row ∈ rows table →
        (∀ j : nat, columns events !! j = Some "modulation" →
                    ∃ v, row !! j = Some (Some v)) →
        row ∈ rows events) ∧
     rows events `sublist_of` rows table ∧
     (∀ (vols : Z) (dense : option frame) (names drift tr : value)
        (ft : l1_times),
        FirstLevelModel.dense_regressors info = Ok (dense, names, drift) →
        py_getitem info (VStr "repetition_time") = Ok tr →
        l1_frame_times vols tr = Ok ft →
        FirstLevelModel.build_design info vols =
        l1_make_design_matrix ft (Some events) dense names drift)) ∧
  ("amplitude" ∉ columns table → "modulation" ∉ columns table →
   FirstLevelModel.sparse_events info
     = Raise (KeyError (VList [VStr "modulation"])) ∧
   ∀ vols : Z, FirstLevelModel.build_design info vols
                 = Raise (KeyError (VList [VStr "modulation"]))).
Proof.
  intros Hp Hsup Hread. split_and!; [done|done| | |].
  - intros label H1 H2. unfold rename_label.
    by rewrite (bool_decide_eq_false_2 _ H1), (bool_decide_eq_false_2 _ H2).
  - intros Hin%renamed_modulation.
    set (keep := fun row : list (option value) =>
           forallb (defined_at row)
             (positions "modulation" (rename_label <$> columns table) 0)).
    assert (FirstLevelModel.sparse_events info =
            Ok (Some {| columns := rename_label <$> columns table;
                        rows := filter (fun row => keep row) (rows table) |}))
      as Hev.
    { unfold FirstLevelModel.sparse_events. rewrite Hp. cbn.
      rewrite Hsup, Hread. cbn.
      by rewrite (dropna_present "modulation" (rename table)). }
    assert (∀ row, keep row = true ↔
              ∀ j : nat, (rename_label <$> columns table) !! j
                           = Some "modulation" →
                         ∃ v, row !! j = Some (Some v)) as Hkeep.
    { intros row. apply dropna_test. }
    eexists _, keep. split; [exact Hev|]. cbn [columns rows].
    split_and!.
    + done.
    + done.
    + exact Hkeep.
    + intros row j Hj Hna [Hk%Is_true_true _]%list_elem_of_filter.
      destruct (proj1 (Hkeep row) Hk j Hj) as [v Hv]. congruence.
    + intros row Hrow Hall. apply list_elem_of_filter. split; [|done].
      apply Is_true_true. by apply Hkeep.
    + apply sublist_filter.
    + intros vols dense names drift tr ft Hd Htr Hft.
      by apply build_design_call with (tr := tr).
  - intros Ha Hm.
    assert (FirstLevelModel.sparse_events info
            = Raise (KeyError (VList [VStr "modulation"]))) as H.
    { unfold FirstLevelModel.sparse_events. rewrite Hp. cbn.
      rewrite Hsup, Hread. cbn. unfold dropna.
      rewrite positions_absent; [done|]. cbn.
      intros [?|?]%renamed_modulation; done. }
    split; [exact H|]. intros vols.
    unfold FirstLevelModel.build_design. by rewrite H.
Qed.

Lemma drift_model_policy_witness :
  @FirstLevelModel.sparse_events table_engine dense_session = Ok None ∧
  py_getitem dense_session (VStr "dense") = Ok (VStr "confounds.h5") ∧
  py_getitem dense_session (VStr "repetition_time") = Ok (VInt 2) ∧
  @l1_frame_times table_engine 2 (VInt 2) = Ok (2, VInt 2) ∧
  ((∀ dense, FirstLevelModel.supplied (VStr "confounds.h5") = true →
      @l1_read_hdf table_engine (VStr "confounds.h5") "dense" = Ok dense →
      "cosine_00" ∈ columns dense →
      @FirstLevelModel.build_design table_engine dense_session 2 =
      @l1_make_design_matrix table_engine (2, VInt 2) None (Some dense)
        (VList (VStr <$> columns dense)) VNone) ∧
   (∀ dense, FirstLevelModel.supplied (VStr "confounds.h5") = true →
      @l1_read_hdf table_engine (VStr "confounds.h5") "dense" = Ok dense →
      "cosine_00" ∉ columns dense →
      @FirstLevelModel.build_design table_engine dense_session 2 =
      @l1_make_design_matrix table_engine (2, VInt 2) None (Some dense)
        (VList (VStr <$> columns dense)) (VStr "cosine")) ∧
   (FirstLevelModel.supplied (VStr "confounds.h5") = false →
      @FirstLevelModel.build_design table_engine dense_session 2 =
      @l1_make_design_matrix table_engine (2, VInt 2) None None VNone
        (VStr "cosine"))).
Proof.
  split; [reflexivity|]. split; [reflexivity|].
  split; [reflexivity|]. split; [reflexivity|].
  apply (drift_model_policy table_engine dense_session
           (VStr "confounds.h5") (VInt 2) 2 None (2, VInt 2));
    reflexivity.
Defined.

(** The example table has a column [amplitude] and three rows, the second
    without an amplitude: the builder receives the first and the third. *)
Lemma sparse_events_prepared_witness :
  py_getitem sparse_session (VStr "sparse") = Ok (VStr "events.h5") ∧
  FirstLevelModel.supplied (VStr "events.h5") = true ∧
  @l1_read_hdf table_engine (VStr "events.h5") "sparse" = Ok events_table ∧
  "amplitude" ∈ columns events_table ∧
  @FirstLevelModel.sparse_events table_engine sparse_session =
    Ok (Some {| columns := ["onset"; "duration"; "trial_type"; "modulation"];
                rows := [ [Some (VInt 0); Some (VInt 2); Some (VStr "go");
                           Some (VInt 1)];
                          [Some (VInt 8); Some (VInt 2); Some (VStr "go");
                           Some (VInt 3)] ] |}) ∧
  ∃ (events : frame) (keep : list (option value) → bool),
    @FirstLevelModel.sparse_events table_engine sparse_session
      = Ok (Some events) ∧
    columns events = rename_label <$> columns events_table ∧
    rows events = filter (fun row => keep row) (rows events_table) ∧
    (∀ row, keep row = true ↔
       ∀ j : nat, columns events !! j = Some "modulation" →
                  ∃ v, row !! j = Some (Some v)) ∧
    (∀ row (j : nat), columns events !! j = Some "modulation" →
       row !! j = Some None → row ∉ rows events) ∧
    (∀ row, row ∈ rows events_table →
       (∀ j : nat, columns events !! j = Some "modulation" →
                   ∃ v, row !! j = Some (Some v)) →
       row ∈ rows events) ∧
    rows events `sublist_of` rows events_table ∧
    (∀ (vols : Z) (dense : option frame) (names drift tr : value)
       (ft : @l1_times table_engine),
       @FirstLevelModel.dense_regressors table_engine sparse_session
         = Ok (dense, names, drift) →
       py_getitem sparse_session (VStr "repetition_time") = Ok tr →
       @l1_frame_times table_engine vols tr = Ok ft →
       @FirstLevelModel.build_design table_engine sparse_session vols =
       @l1_make_design_matrix table_engine ft (Some events) dense names
         drift).
Proof.
  assert ("amplitude" ∈ columns events_table) as Hin.
  { apply (list_elem_of_lookup_2 _ 3%nat). reflexivity. }
  split; [reflexivity|]. split; [reflexivity|].
  split; [reflexivity|]. split; [exact Hin|]. split; [reflexivity|].
  pose proof (sparse_events_prepared table_engine sparse_session
                (VStr "events.h5") events_table) as H.
  destruct H as (_ & _ & _ & Hyes & _); [reflexivity..|].
  apply Hyes. left. exact Hin.
Defined.

(** C8 as stated fails for a supplied table without an amplitude: the table
    with the columns [onset], [duration] and [condition] is not handed to
    the builder with its rows passed on; the driver stops with
    [KeyError(['modulation'])]. *)
Lemma sparse_events_prepared_counterexample :
  py_getitem sparse_session (VStr "sparse") = Ok (VStr "events.h5") ∧
  FirstLevelModel.supplied (VStr "events.h5") = true ∧
  @l1_read_hdf onsets_engine (VStr "events.h5") "sparse" = Ok onsets_table ∧
  @FirstLevelModel.sparse_events onsets_engine sparse_session
    = Raise (KeyError (VList [VStr "modulation"])) ∧
  @FirstLevelModel.build_design onsets_engine sparse_session 2
    = Raise (KeyError (VList [VStr "modulation"])) ∧
  @FirstLevelModel._run_interface onsets_engine "/work"
    {| FirstLevelModel.bold_file := "bold.nii.gz";
       FirstLevelModel.mask_file := VUndefined;
       FirstLevelModel.session_info := sparse_session;
       FirstLevelModel.contrast_info := VUndefined |}
    = Raise (KeyError (VList [VStr "modulation"])).
Proof. split_and!; reflexivity. Qed.

(** The example events, as the builder receives them: the second row, whose
    amplitude is missing, is gone. *)
Example sparse_events_example :
  @FirstLevelModel.sparse_events table_engine sparse_session =
  Ok (Some {| columns := ["onset"; "duration"; "trial_type"; "modulation"];
              rows := [ [Some (VInt 0); Some (VInt 2); Some (VStr "go");
                         Some (VInt 1)];
                        [Some (VInt 8); Some (VInt 2); Some (VStr "go");
                         Some (VInt 3)] ] |}).
Proof. reflexivity. Qed.

(** * Further properties *)

(** ** The normaliser on other inputs *)

Lemma mapM_app_Raise {A B} (f : A → res B) (pre : list A) (x : A)
    (post : list A) (ys : list B) (e : exn) :
  mapM f pre = Ok ys → f x = Raise e → mapM f (pre ++ x :: post) = Raise e.
Proof.
  revert ys. induction pre as [|p pre IH]; intros ys Hpre Hx.
  - by apply mapM_Raise_head.
  - rewrite <- app_comm_cons, mapM_cons. rewrite mapM_cons in Hpre.
    destruct (f p) as [y|]; [|done]. cbn in *.
    destruct (mapM f pre) as [ys'|] eqn:Hm; [|done].
    by rewrite (IH ys').
Qed.

Lemma mapM_prepare_contrast_dicts cols (cs : list (gmap string value))
    (rowss : list (list (gmap string value))) :
  Forall2 (fun c rws => c !! "weights" = Some (VList (VDict <$> rws))) cs rowss →
  mapM (prepare_contrast (VList (VStr <$> cols))) (VDict <$> cs) =
  Ok (VDict <$> zip_with (normalised cols) cs rowss).
Proof.
  induction 1 as [|c rws cs rowss Hc _ IH]; [done|].
  rewrite fmap_cons, mapM_cons, (prepare_contrast_dict _ _ _ Hc), IH.
  reflexivity.
Qed.

(** X1. Normalisation touches nothing but the weights: every output contrast has
    the keys of its input contrast, and every key other than [weights] keeps
    its value (so [name] and [type] survive). *)
Theorem prepare_contrasts_keeps_fields (cs : list (gmap string value))
    (rowss : list (list (gmap string value))) (cols : list string) :
  Forall2 (fun c rws => c !! "weights" = Some (VList (VDict <$> rws))) cs rowss →
  ∃ outs : list (gmap string value),
    prepare_contrasts (VList (VDict <$> cs)) (VList (VStr <$> cols)) =
      Ok (VList (VDict <$> outs)) ∧
    ∀ (i : nat) c, cs !! i = Some c →
      ∃ out, outs !! i = Some out ∧
             dom out = dom c ∧
             ∀ k, k ≠ "weights" → out !! k = c !! k.
Proof.
  intros H. exists (zip_with (normalised cols) cs rowss).
  split; [by apply prepare_contrasts_dicts|].
  intros i c Hc.
  destruct (Forall2_lookup_l _ _ _ _ _ H Hc) as (rws & Hrws & Hw).
  exists (normalised cols c rws). split.
  { rewrite lookup_zip_with, Hc. cbn. by rewrite Hrws. }
  unfold normalised. split.
  - apply dom_insert_lookup_L. by rewrite Hw.
  - intros k Hk. by rewrite lookup_insert_ne.
Qed.

Lemma prepare_contrasts_keeps_fields_witness :
  Forall2 (fun c rws => c !! "weights" = Some (VList (VDict <$> rws)))
    [sparse_contrast] [sparse_contrast_rows] ∧
  ∃ outs : list (gmap string value),
    prepare_contrasts (VList (VDict <$> [sparse_contrast]))
                      (VList (VStr <$> ["go"; "stop"])) =
      Ok (VList (VDict <$> outs)) ∧
    ∀ (i : nat) c, [sparse_contrast] !! i = Some c →
      ∃ out, outs !! i = Some out ∧
             dom out = dom c ∧
             ∀ k, k ≠ "weights" → out !! k = c !! k.
Proof.
  assert (Forall2 (fun c rws => c !! "weights" = Some (VList (VDict <$> rws)))
            [sparse_contrast] [sparse_contrast_rows]) as H
    by repeat constructor.
  split; [exact H|].
  exact (prepare_contrasts_keeps_fields [sparse_contrast]
           [sparse_contrast_rows] ["go"; "stop"] H).
Defined.

(** X2. A contrast without the key [weights] makes the whole normalisation fail
    with [KeyError('weights')], even when the contrasts before it are well
    formed: no partial result is returned. *)
Theorem prepare_contrasts_missing_weights (pre : list (gmap string value))
    (rowss : list (list (gmap string value))) (c : gmap string value)
    (post : list value) (cols : list string) :
  Forall2 (fun c rws => c !! "weights" = Some (VList (VDict <$> rws))) pre rowss →
  c !! "weights" = None →
  prepare_contrasts (VList ((VDict <$> pre) ++ VDict c :: post))
                    (VList (VStr <$> cols))
    = Raise (KeyError (VStr "weights")).
Proof.
  intros Hpre Hc. unfold prepare_contrasts. cbn.
  rewrite (mapM_app_Raise _ _ _ _ _ (KeyError (VStr "weights"))
             (mapM_prepare_contrast_dicts cols pre rowss Hpre)); [done|].
  unfold prepare_contrast. cbn. by rewrite Hc.
Qed.

Lemma prepare_contrasts_missing_weights_witness :
  Forall2 (fun c rws => c !! "weights" = Some (VList (VDict <$> rws)))
    [sparse_contrast] [sparse_contrast_rows] ∧
  unweighted_contrast !! "weights" = None ∧
  prepare_contrasts
    (VList ((VDict <$> [sparse_contrast]) ++ VDict unweighted_contrast :: []))
    (VList (VStr <$> ["go"; "stop"]))
    = Raise (KeyError (VStr "weights")).
Proof.
  assert (Forall2 (fun c rws => c !! "weights" = Some (VList (VDict <$> rws)))
            [sparse_contrast] [sparse_contrast_rows]) as H
    by repeat constructor.
  split; [exact H|]. split; [reflexivity|].
  exact (prepare_contrasts_missing_weights [sparse_contrast]
           [sparse_contrast_rows] unweighted_contrast [] ["go"; "stop"]
           H eq_refl).
Defined.

(** X3. An element of [contrasts] that is not a mapping (a list, as the
    second-level input trait [List(List(Dict))] would supply) makes the
    normalisation fail with [TypeError] at [{**contrast}]. *)
Theorem prepare_contrasts_not_a_mapping (pre : list (gmap string value))
    (rowss : list (list (gmap string value))) (c : value)
    (post : list value) (cols : list string) :
  Forall2 (fun c rws => c !! "weights" = Some (VList (VDict <$> rws))) pre rowss →
  (∀ d, c ≠ VDict d) →
  prepare_contrasts (VList ((VDict <$> pre) ++ c :: post))
                    (VList (VStr <$> cols))
    = Raise TypeError.
Proof.
  intros Hpre Hc. unfold prepare_contrasts. cbn.
  rewrite (mapM_app_Raise _ _ _ _ _ TypeError
             (mapM_prepare_contrast_dicts cols pre rowss Hpre)); [done|].
  destruct c; try done. by destruct (Hc d).
Qed.

Lemma prepare_contrasts_not_a_mapping_witness :
  Forall2 (fun c rws => c !! "weights" = Some (VList (VDict <$> rws)))
    [sparse_contrast] [sparse_contrast_rows] ∧
  (∀ d, VList [VDict sparse_contrast] ≠ VDict d) ∧
  prepare_contrasts
    (VList ((VDict <$> [sparse_contrast])
              ++ VList [VDict sparse_contrast] :: []))
    (VList (VStr <$> ["go"; "stop"]))
    = Raise TypeError.
Proof.
  assert (Forall2 (fun c rws => c !! "weights" = Some (VList (VDict <$> rws)))
            [sparse_contrast] [sparse_contrast_rows]) as H
    by repeat constructor.
  assert (∀ d, VList [VDict sparse_contrast] ≠ VDict d) as Hn
    by (intros d; discriminate).
  split; [exact H|]. split; [exact Hn|].
  exact (prepare_contrasts_not_a_mapping [sparse_contrast]
           [sparse_contrast_rows] (VList [VDict sparse_contrast]) []
           ["go"; "stop"] H Hn).
Defined.

Lemma dense_row_numbers (cols : list string) (cells : list Z) :
  dense_row (VList (VStr <$> cols)) (VList (VInt <$> cells)) =
  Ok (VList ((fun _ => VInt 0) <$> cols)).
Proof.
  unfold dense_row. cbn.
  rewrite (mapM_Ok _ (fun _ => VInt 0)).
  - cbn. by rewrite <- list_fmap_compose.
  - intros v [col [-> _]]%list_elem_of_fmap. cbn.
    assert (existsb (fun x => py_eq x (VStr col)) (VInt <$> cells) = false)
      as ->; [|done].
    induction cells as [|z cells IH]; [done|]. exact IH.
Qed.

(** X4. Normalisation is not idempotent: applied to contrasts whose weights are
    already dense rows of numbers it raises nothing and replaces every row
    by a row of zeros of length [len(columns)], because [col in row] is then
    a membership test on a list of numbers. *)
Theorem prepare_contrasts_dense_rows_zeroed (cs : list (gmap string value))
    (rowss : list (list (list Z))) (cols : list string) :
  Forall2 (fun c rws =>
             c !! "weights"
               = Some (VList ((fun r : list Z => VList (VInt <$> r)) <$> rws)))
          cs rowss →
  prepare_contrasts (VList (VDict <$> cs)) (VList (VStr <$> cols)) =
  Ok (VList (VDict <$>
        zip_with (fun c (rws : list (list Z)) =>
                    <["weights" :=
                        VList ((fun _ => VList ((fun _ => VInt 0) <$> cols))
                                 <$> rws)]> c)
                 cs rowss)).
Proof.
  intros H. unfold prepare_contrasts. cbn.
  match goal with
  | |- mapM ?f ?l ≫= _ = Ok (VList ?r) =>
      assert (mapM f l = Ok r) as ->; [|done]
  end.
  induction H as [|c rws cs rowss Hc _ IH]; [done|].
  rewrite fmap_cons, mapM_cons, IH. cbn [zip_with fmap list_fmap].
  assert (prepare_contrast (VList (VStr <$> cols)) (VDict c) =
          Ok (VDict (<["weights" :=
                         VList ((fun _ => VList ((fun _ => VInt 0) <$> cols))
                                  <$> rws)]> c))) as ->; [|done].
  unfold prepare_contrast. cbn. rewrite Hc. cbn.
  rewrite (mapM_Ok _ (fun _ => VList ((fun _ => VInt 0) <$> cols))).
  - cbn. by rewrite <- list_fmap_compose.
  - intros v [r [-> _]]%list_elem_of_fmap. apply dense_row_numbers.
Qed.

Lemma prepare_contrasts_dense_rows_zeroed_witness :
  Forall2 (fun c rws =>
             c !! "weights"
               = Some (VList ((fun r : list Z => VList (VInt <$> r)) <$> rws)))
          [dense_contrast] [[[1; -1]]] ∧
  prepare_contrasts (VList (VDict <$> [dense_contrast]))
                    (VList (VStr <$> ["go"; "stop"])) =
  Ok (VList (VDict <$>
        zip_with (fun c (rws : list (list Z)) =>
                    <["weights" :=
                        VList ((fun _ => VList ((fun _ => VInt 0)
                                                  <$> ["go"; "stop"]))
                                 <$> rws)]> c)
                 [dense_contrast] [[[1; -1]]])).
Proof.
  assert (Forall2 (fun c rws =>
             c !! "weights"
               = Some (VList ((fun r : list Z => VList (VInt <$> r)) <$> rws)))
          [dense_contrast] [[[1; -1]]]) as H by repeat constructor.
  split; [exact H|].
  exact (prepare_contrasts_dense_rows_zeroed [dense_contrast] [[[1; -1]]]
           ["go"; "stop"] H).
Defined.

(** Whatever [prepare_contrasts] returns is a list. *)
Lemma prepare_contrasts_returns_list (contrasts all_regressors out : value) :
  prepare_contrasts contrasts all_regressors = Ok out → ∃ l, out = VList l.
Proof.
  unfold prepare_contrasts.
  destruct (py_iter _) as [cs|]; [|done]. cbn.
  destruct (mapM _ cs) as [outs|]; [|done]. cbn.
  intros [= <-]. eauto.
Qed.

(** ** Flattening and matching on other inputs *)

(** X25. One scan of the second-level driver selects the file paired with
    the FIRST record of the flattened, zipped pool that [_match] accepts:
    every earlier record is rejected, and one file is selected whenever some
    record is accepted.  [_match] accepts a record when, for every filter
    key, [metadata.get(key)] (which is [None] for a missing key) equals the
    filter's value. *)
Theorem scan_pool_first_match (q : gmap string value)
    (stat_files : list (list string))
    (stat_metadata : list (list (gmap string value))) :
  (∃ f m, (f, m) ∈ pool_of stat_files stat_metadata ∧
          _match (VDict q) (VDict m) = Ok true) →
  (∃ (i : nat) f m,
     pool_of stat_files stat_metadata !! i = Some (f, m) ∧
     _match (VDict q) (VDict m) = Ok true ∧
     (∀ (j : nat) f' m', (j < i)%nat →
        pool_of stat_files stat_metadata !! j = Some (f', m') →
        _match (VDict q) (VDict m') = Ok false) ∧
     scan_pool (VDict q) (files_value stat_files)
               (metadata_value stat_metadata) = Ok (VStr f)) ∧
  (∀ m : gmap string value,
     _match (VDict q) (VDict m) = Ok true ↔
     ∀ k v, q !! k = Some v → py_eq (default VNone (m !! k)) v = true).
Proof.
  intros H. split; [|intros m; apply _match_true].
  rewrite scan_pool_typed. by apply find_run_first.
Qed.

Lemma scan_pool_first_match_witness :
  (∃ f m, (f, m) ∈ pool_of example_files example_metadata ∧
          _match (VDict {[ "id" := VInt 2 ]}) (VDict m) = Ok true) ∧
  ((∃ (i : nat) f m,
      pool_of example_files example_metadata !! i = Some (f, m) ∧
      _match (VDict {[ "id" := VInt 2 ]}) (VDict m) = Ok true ∧
      (∀ (j : nat) f' m', (j < i)%nat →
         pool_of example_files example_metadata !! j = Some (f', m') →
         _match (VDict {[ "id" := VInt 2 ]}) (VDict m') = Ok false) ∧
      scan_pool (VDict {[ "id" := VInt 2 ]}) (files_value example_files)
                (metadata_value example_metadata) = Ok (VStr f)) ∧
   (∀ m : gmap string value,
      _match (VDict {[ "id" := VInt 2 ]}) (VDict m) = Ok true ↔
      ∀ k v, ({[ "id" := VInt 2 ]} : gmap string value) !! k = Some v →
             py_eq (default VNone (m !! k)) v = true)).
Proof.
  assert (∃ f m, (f, m) ∈ pool_of example_files example_metadata ∧
                 _match (VDict {[ "id" := VInt 2 ]}) (VDict m) = Ok true) as H.
  { exists "run-2.nii.gz", {[ "id" := VInt 2 ]}. split; [|reflexivity].
    apply (list_elem_of_lookup_2 _ 1%nat). reflexivity. }
  split; [exact H|].
  exact (scan_pool_first_match {[ "id" := VInt 2 ]}
           example_files example_metadata H).
Defined.

(** Where a filter value is [None] the first accepted record need not
    contain the key: with the pool [[{}, {run: None}]] and the filter
    [{run: None}] the scan selects the first file, whose record has no key
    [run], although the second record is the first one that contains every
    filter key with an equal value. *)
Example scan_pool_none_filter :
  scan_pool (VDict {[ "run" := VNone ]})
            (files_value [["a.nii.gz"; "b.nii.gz"]])
            (metadata_value [[ ∅; {[ "run" := VNone ]} ]])
    = Ok (VStr "a.nii.gz") ∧
  spec_satisfies {[ "run" := VNone ]} ∅ = false ∧
  spec_satisfies {[ "run" := VNone ]} {[ "run" := VNone ]} = true.
Proof. split_and!; reflexivity. Qed.

Lemma chars_one_character (s : string) :
  Forall (fun v => ∃ a, v = VStr (String a EmptyString)) (chars s).
Proof. induction s as [|a s IH]; constructor; eauto. Qed.

(** X5. A flat list of strings is not rejected by [_flatten]: each string is
    itself iterated, so a list of file names comes back as the list of their
    single characters. *)
Theorem _flatten_flat_strings (names : list string) :
  ∃ out,
    _flatten (VList (VStr <$> names)) = Ok out ∧
    out = concat (chars <$> names) ∧
    Forall (fun v => ∃ a, v = VStr (String a EmptyString)) out.
Proof.
  exists (concat (chars <$> names)). split_and!; [|done|].
  - unfold _flatten. cbn.
    rewrite (mapM_Ok _ (fun v => match v with VStr s => chars s | _ => [] end)).
    + cbn. by rewrite <- list_fmap_compose.
    + by intros v [s [-> _]]%list_elem_of_fmap.
  - apply Forall_concat, Forall_fmap, Forall_forall.
    intros s _. apply chars_one_character.
Qed.

Lemma _flatten_files (sf : list (list string)) :
  _flatten (files_value sf) = Ok (VStr <$> concat sf).
Proof.
  assert (files_value sf =
          VList (VList <$> ((fmap VStr : list string → list value) <$> sf)))
    as -> by (unfold files_value; by rewrite <- list_fmap_compose).
  by rewrite _flatten_lists, concat_fmap_fmap.
Qed.

(** X6. [stat_metadata] is not a mandatory input: when it was never set, every
    scan raises [TypeError], whatever the filter and the files. *)
Theorem scan_pool_undefined_metadata (idx : value)
    (stat_files : list (list string)) :
  scan_pool idx (files_value stat_files) VUndefined = Raise TypeError.
Proof. unfold scan_pool. by rewrite _flatten_files. Qed.

(** X7. The empty filter accepts every record, mapping or not, so a scan with it
    selects the first file of a pool that is not empty. *)
Theorem scan_pool_empty_filter (stat_files : list (list string))
    (stat_metadata : list (list (gmap string value)))
    (f : string) (m : gmap string value)
    (rest : list (string * gmap string value)) :
  pool_of stat_files stat_metadata = (f, m) :: rest →
  (∀ metadata : value, _match (VDict ∅) metadata = Ok true) ∧
  scan_pool (VDict ∅) (files_value stat_files)
            (metadata_value stat_metadata) = Ok (VStr f).
Proof.
  intros Hpool. split; [done|].
  by rewrite scan_pool_typed, Hpool.
Qed.

Lemma scan_pool_empty_filter_witness :
  pool_of example_files example_metadata
    = ("run-1.nii.gz", {[ "id" := VInt 1 ]})
        :: [("run-2.nii.gz", {[ "id" := VInt 2 ]})] ∧
  ((∀ metadata : value, _match (VDict ∅) metadata = Ok true) ∧
   scan_pool (VDict ∅) (files_value example_files)
             (metadata_value example_metadata) = Ok (VStr "run-1.nii.gz")).
Proof.
  split; [reflexivity|].
  exact (scan_pool_empty_filter example_files example_metadata
           "run-1.nii.gz" {[ "id" := VInt 1 ]}
           [("run-2.nii.gz", {[ "id" := VInt 2 ]})] eq_refl).
Defined.

Lemma forallb_ext_in {A} (f g : A → bool) (l : list A) :
  (∀ x, x ∈ l → f x = g x) → forallb f l = forallb g l.
Proof.
  induction l as [|x l IH]; intros H; [done|].
  cbn. rewrite (H x) by left. f_equal. apply IH.
  intros y Hy. apply H. by right.
Qed.

(** X8. Keys of the metadata that the filter does not mention are "don't care":
    adding or changing such a key never changes the answer of [_match]. *)
Theorem _match_ignores_other_keys (q m : gmap string value) (k : string)
    (v : value) :
  q !! k = None →
  _match (VDict q) (VDict (<[k := v]> m)) = _match (VDict q) (VDict m).
Proof.
  intros Hk. cbn. rewrite !match_items_dict. f_equal.
  apply forallb_ext_in. intros [k' v'] Hin. cbn.
  apply elem_of_map_to_list in Hin.
  rewrite lookup_insert_ne; [done|]. intros ->. congruence.
Qed.

Lemma _match_ignores_other_keys_witness :
  ({[ "subject" := VStr "01" ]} : gmap string value) !! "run" = None ∧
  _match (VDict {[ "subject" := VStr "01" ]})
         (VDict (<["run" := VInt 2]> {[ "subject" := VStr "01" ]})) =
  _match (VDict {[ "subject" := VStr "01" ]})
         (VDict {[ "subject" := VStr "01" ]}).
Proof.
  split; [reflexivity|].
  exact (_match_ignores_other_keys {[ "subject" := VStr "01" ]}
           {[ "subject" := VStr "01" ]} "run" (VInt 2) eq_refl).
Defined.

(** X9. A weaker filter accepts whatever a stronger one accepts: if a record is
    accepted for a filter, it is accepted for every sub-mapping of it. *)
Theorem _match_weaker_filter (q q' m : gmap string value) :
  q ⊆ q' →
  _match (VDict q') (VDict m) = Ok true →
  _match (VDict q) (VDict m) = Ok true.
Proof.
  intros Hsub H. apply _match_true. intros k v Hk.
  apply (proj1 (_match_true q' m) H). by eapply lookup_weaken.
Qed.

Lemma _match_weaker_filter_witness :
  ({[ "subject" := VStr "01" ]} : gmap string value)
    ⊆ {[ "subject" := VStr "01"; "run" := VInt 2 ]} ∧
  _match (VDict {[ "subject" := VStr "01"; "run" := VInt 2 ]})
         (VDict {[ "subject" := VStr "01"; "run" := VInt 2 ]}) = Ok true ∧
  _match (VDict {[ "subject" := VStr "01" ]})
         (VDict {[ "subject" := VStr "01"; "run" := VInt 2 ]}) = Ok true.
Proof.
  assert (({[ "subject" := VStr "01" ]} : gmap string value)
            ⊆ {[ "subject" := VStr "01"; "run" := VInt 2 ]}) as Hsub.
  { apply map_subseteq_spec. intros k v Hk.
    apply lookup_singleton_Some in Hk as [<- <-]. reflexivity. }
  split; [exact Hsub|]. split; [reflexivity|].
  apply (_match_weaker_filter {[ "subject" := VStr "01" ]}
           {[ "subject" := VStr "01"; "run" := VInt 2 ]}
           {[ "subject" := VStr "01"; "run" := VInt 2 ]} Hsub).
  reflexivity.
Defined.

Lemma py_eq_scalar_refl (v : value) : is_scalar v = true → py_eq v v = true.
Proof.
  destruct v; cbn; try done; intros _; by apply bool_decide_eq_true_2.
Qed.

(** X10. A filter taken from a record's own metadata accepts that record: when
    the filter is a sub-mapping of the metadata and its values are scalars
    (None, booleans, integers, strings), [_match] returns [True]. *)
Theorem _match_own_entities (q m : gmap string value) :
  q ⊆ m →
  map_Forall (fun _ v => is_scalar v = true) q →
  _match (VDict q) (VDict m) = Ok true.
Proof.
  intros Hsub Hsc. apply _match_true. intros k v Hk.
  rewrite (lookup_weaken _ _ _ _ Hk Hsub). cbn.
  apply py_eq_scalar_refl. by eapply Hsc.
Qed.

Lemma _match_own_entities_witness :
  ({[ "subject" := VStr "01" ]} : gmap string value)
    ⊆ {[ "subject" := VStr "01"; "run" := VInt 2 ]} ∧
  map_Forall (fun _ v => is_scalar v = true)
    ({[ "subject" := VStr "01" ]} : gmap string value) ∧
  _match (VDict {[ "subject" := VStr "01" ]})
         (VDict {[ "subject" := VStr "01"; "run" := VInt 2 ]}) = Ok true.
Proof.
  assert (({[ "subject" := VStr "01" ]} : gmap string value)
            ⊆ {[ "subject" := VStr "01"; "run" := VInt 2 ]}) as Hsub.
  { apply map_subseteq_spec. intros k v Hk.
    apply lookup_singleton_Some in Hk as [<- <-]. reflexivity. }
  assert (map_Forall (fun _ v => is_scalar v = true)
            ({[ "subject" := VStr "01" ]} : gmap string value)) as Hsc.
  { intros k v Hk. apply lookup_singleton_Some in Hk as [<- <-].
    reflexivity. }
  split; [exact Hsub|]. split; [exact Hsc|].
  exact (_match_own_entities {[ "subject" := VStr "01" ]}
           {[ "subject" := VStr "01"; "run" := VInt 2 ]} Hsub Hsc).
Defined.



(** X12. The scan pairs files and records by position after flattening, so the
    grouping into inner lists is irrelevant and whatever one input has
    beyond the length of the other is never looked at. *)
Theorem scan_pool_truncates (idx : value) (stat_files : list (list string))
    (stat_metadata : list (list (gmap string value))) :
  scan_pool idx (files_value stat_files) (metadata_value stat_metadata) =
  scan_pool idx
    (files_value [take (length (concat stat_metadata)) (concat stat_files)])
    (metadata_value
       [take (length (concat stat_files)) (concat stat_metadata)]).
Proof.
  rewrite !scan_pool_typed. f_equal. f_equal. unfold pool_of. cbn.
  rewrite !app_nil_r. symmetry. apply zip_with_take_both.
Qed.

(** X13. The matching loop on what the normaliser returns: the result of
    [prepare_contrasts] is a list, and the loop reads the filter by
    subscripting that list with ['entities'], so it either has nothing to do
    or raises [TypeError] before looking at the pool. *)
Theorem match_runs_after_prepare (contrast_info all_regressors contrasts
    stat_files stat_metadata : value) :
  prepare_contrasts contrast_info all_regressors = Ok contrasts →
  (contrasts = VList [] ∧
   match_runs contrasts stat_files stat_metadata = Ok []) ∨
  match_runs contrasts stat_files stat_metadata = Raise TypeError.
Proof.
  intros H. destruct (prepare_contrasts_returns_list _ _ _ H) as [l ->].
  destruct l as [|c cs]; [by left|right]. reflexivity.
Qed.

Lemma match_runs_after_prepare_witness :
  prepare_contrasts (VList [VDict sparse_contrast])
                    (VList [VStr "go"; VStr "stop"])
    = Ok (VList [VDict (normalised ["go"; "stop"] sparse_contrast
                          sparse_contrast_rows)]) ∧
  ((VList [VDict (normalised ["go"; "stop"] sparse_contrast
                    sparse_contrast_rows)] = VList [] ∧
    match_runs
      (VList [VDict (normalised ["go"; "stop"] sparse_contrast
                       sparse_contrast_rows)])
      (files_value example_files) (metadata_value example_metadata) = Ok []) ∨
   match_runs
     (VList [VDict (normalised ["go"; "stop"] sparse_contrast
                      sparse_contrast_rows)])
     (files_value example_files) (metadata_value example_metadata)
     = Raise TypeError).
Proof.
  assert (prepare_contrasts (VList [VDict sparse_contrast])
                            (VList [VStr "go"; VStr "stop"])
          = Ok (VList [VDict (normalised ["go"; "stop"] sparse_contrast
                                sparse_contrast_rows)])) as H.
  { apply (prepare_contrasts_dicts ["go"; "stop"] [sparse_contrast]
             [sparse_contrast_rows]). repeat constructor. }
  split; [exact H|].
  exact (match_runs_after_prepare _ _ _ (files_value example_files)
           (metadata_value example_metadata) H).
Defined.

(** ** The second-level driver and its parts *)

(** X14. The second-level driver returns for no input: whatever the inputs, the
    engine, [dict_intersection] and the working directory, it raises
    [TypeError] at the call [prepare_contrasts(self.inputs.contrast_info)],
    which lacks the required argument [all_regressors]. *)
Theorem second_level_never_returns (E : Level2Engine)
    (dict_intersection : value → value → res value) (cwd : string)
    (inputs : SecondLevelModel.InputSpec) :
  SecondLevelModel._run_interface dict_intersection cwd inputs
    = Raise TypeError ∧
  ∀ out, SecondLevelModel._run_interface dict_intersection cwd inputs
           ≠ Ok out.
Proof.
  split; [apply second_level_raises|].
  intros out. by rewrite second_level_raises.
Qed.

(** X15. The output entities without an intersection to take: an empty or unset
    [contrast_indices] raises [TypeError] ([reduce] of an empty sequence),
    and a single mapping is returned as it is, with [type] set to ['stat'],
    [dict_intersection] not being consulted. *)
Theorem output_entities_edge_cases
    (dict_intersection : value → value → res value) :
  SecondLevelModel.output_entities dict_intersection (VList [])
    = Raise TypeError ∧
  SecondLevelModel.output_entities dict_intersection VUndefined
    = Raise TypeError ∧
  ∀ d : gmap string value,
    SecondLevelModel.output_entities dict_intersection (VList [VDict d])
      = Ok (<["type" := VStr "stat"]> d).
Proof. split_and!; reflexivity. Qed.

(** X16. Whenever the output entities are computed, their [type] is ['stat'],
    whatever [dict_intersection] returned for that key. *)
Theorem output_entities_type
    (dict_intersection : value → value → res value)
    (contrast_indices : value) (out_ents : gmap string value) :
  SecondLevelModel.output_entities dict_intersection contrast_indices
    = Ok out_ents →
  out_ents !! "type" = Some (VStr "stat").
Proof.
  unfold SecondLevelModel.output_entities.
  destruct (py_reduce dict_intersection contrast_indices) as [v|]; [|done].
  cbn. destruct v; try done. cbn. intros [= <-].
  apply lookup_insert_eq.
Qed.

Lemma output_entities_type_witness :
  SecondLevelModel.output_entities example_intersection
    (VList [VDict {[ "subject" := VStr "01"; "run" := VInt 1;
                     "type" := VStr "effect" ]};
            VDict {[ "subject" := VStr "01"; "run" := VInt 2;
                     "type" := VStr "effect" ]}])
    = Ok {[ "subject" := VStr "01"; "type" := VStr "stat" ]} ∧
  ({[ "subject" := VStr "01"; "type" := VStr "stat" ]}
     : gmap string value) !! "type" = Some (VStr "stat").
Proof.
  assert (SecondLevelModel.output_entities example_intersection
            (VList [VDict {[ "subject" := VStr "01"; "run" := VInt 1;
                             "type" := VStr "effect" ]};
                    VDict {[ "subject" := VStr "01"; "run" := VInt 2;
                             "type" := VStr "effect" ]}])
          = Ok {[ "subject" := VStr "01"; "type" := VStr "stat" ]}) as H
    by (vm_compute; reflexivity).
  split; [exact H|].
  exact (output_entities_type example_intersection _ _ H).
Defined.

Lemma fit_contrast_Ok (E : Level2Engine) (cwd : string) (files : list value)
    (out_ents : gmap string value) (model model' : l2_model)
    (contrast : value) (fname : string) (metadata : value) :
  SecondLevelModel.fit_contrast cwd files out_ents model contrast
    = Ok (model', fname, metadata) →
  fname = l2_path cwd contrast ∧
  metadata = VDict (<["contrast" := contrast]> out_ents).
Proof.
  unfold SecondLevelModel.fit_contrast.
  destruct (py_getitem contrast (VStr "weights")) as [w|]; [|done]. cbn.
  destruct (py_getitem w _) as [i|]; [|done]. cbn.
  destruct (l2_fit _ _ _) as [m|]; [|done]. cbn.
  destruct (py_getitem contrast (VStr "type")) as [t|]; [|done]. cbn.
  destruct (l2_compute_contrast _ _) as [s|]; [|done]. cbn.
  destruct (l2_to_filename _ _) as [[]|]; [|done]. cbn.
  by intros [= _ <- <-].
Qed.

(** X17. When the second loop completes, it has produced one map and one
    metadata record per contrast, in the order of the contrasts: the file
    name is the path formatted from the contrast, and the metadata is the
    output entities with the contrast added under the key [contrast]. *)
Theorem fit_contrasts_outputs (E : Level2Engine) (cwd : string)
    (files : list value) (out_ents : gmap string value) (model : l2_model)
    (contrasts : list value) (maps : list string) (metas : list value) :
  SecondLevelModel.fit_contrasts cwd files out_ents model contrasts
    = Ok (maps, metas) →
  maps = l2_path cwd <$> contrasts ∧
  metas = (fun c => VDict (<["contrast" := c]> out_ents)) <$> contrasts.
Proof.
  revert model maps metas.
  induction contrasts as [|c cs IH]; intros model maps metas.
  { cbn. by intros [= <- <-]. }
  cbn.
  destruct (SecondLevelModel.fit_contrast cwd files out_ents model c)
    as [[[model' fname] metadata]|] eqn:Hc; [|done]. cbn.
  destruct (SecondLevelModel.fit_contrasts cwd files out_ents model' cs)
    as [[maps' metas']|] eqn:Hcs; [|done]. cbn.
  intros [= <- <-].
  destruct (fit_contrast_Ok _ _ _ _ _ _ _ _ _ Hc) as [-> ->].
  destruct (IH _ _ _ Hcs) as [-> ->]. done.
Qed.

Lemma fit_contrasts_outputs_witness :
  SecondLevelModel.fit_contrasts (E := accepting_engine) "/work"
      [VStr "run-1.nii.gz"; VStr "run-2.nii.gz"]
      {[ "type" := VStr "stat" ]} tt
      [VDict runs_contrast; VDict zero_contrast]
    = Ok (["/work/stat.nii.gz"; "/work/stat.nii.gz"],
          [VDict (<["contrast" := VDict runs_contrast]>
                    {[ "type" := VStr "stat" ]});
           VDict (<["contrast" := VDict zero_contrast]>
                    {[ "type" := VStr "stat" ]})]) ∧
  (["/work/stat.nii.gz"; "/work/stat.nii.gz"]
     = @l2_path accepting_engine "/work"
         <$> [VDict runs_contrast; VDict zero_contrast] ∧
   [VDict (<["contrast" := VDict runs_contrast]> {[ "type" := VStr "stat" ]});
    VDict (<["contrast" := VDict zero_contrast]> {[ "type" := VStr "stat" ]})]
     = (fun c => VDict (<["contrast" := c]> {[ "type" := VStr "stat" ]}))
         <$> [VDict runs_contrast; VDict zero_contrast]).
Proof.
  assert (SecondLevelModel.fit_contrasts (E := accepting_engine) "/work"
            [VStr "run-1.nii.gz"; VStr "run-2.nii.gz"]
            {[ "type" := VStr "stat" ]} tt
            [VDict runs_contrast; VDict zero_contrast]
          = Ok (["/work/stat.nii.gz"; "/work/stat.nii.gz"],
                [VDict (<["contrast" := VDict runs_contrast]>
                          {[ "type" := VStr "stat" ]});
                 VDict (<["contrast" := VDict zero_contrast]>
                          {[ "type" := VStr "stat" ]})])) as H
    by (vm_compute; reflexivity).
  split; [exact H|].
  exact (fit_contrasts_outputs accepting_engine _ _ _ _ _ _ _ H).
Defined.

(** ** Tables and the first-level driver on other inputs *)

Lemma rename_label_other (label : string) :
  label ≠ "condition" → label ≠ "amplitude" → rename_label label = label.
Proof.
  intros H1 H2. unfold rename_label.
  by rewrite (bool_decide_eq_false_2 _ H1), (bool_decide_eq_false_2 _ H2).
Qed.

Lemma rename_label_fixed (label : string) :
  rename_label (rename_label label) = rename_label label.
Proof.
  destruct (decide (label = "condition")) as [->|H1]; [reflexivity|].
  destruct (decide (label = "amplitude")) as [->|H2]; [reflexivity|].
  rewrite (rename_label_other label) by done.
  by rewrite (rename_label_other label).
Qed.

Lemma rename_label_never_old (label : string) :
  rename_label label ≠ "condition" ∧ rename_label label ≠ "amplitude".
Proof.
  unfold rename_label.
  destruct (decide (label = "condition")) as [->|H1].
  { by rewrite bool_decide_eq_true_2. }
  rewrite (bool_decide_eq_false_2 _ H1).
  destruct (decide (label = "amplitude")) as [->|H2].
  { by rewrite bool_decide_eq_true_2. }
  by rewrite (bool_decide_eq_false_2 _ H2).
Qed.

(** X18. After the renaming no column is called [condition] or [amplitude], the
    number of columns and all rows are as before, and renaming again changes
    nothing. *)
Theorem rename_properties (df : frame) :
  ("condition" ∉ columns (rename df)) ∧
  ("amplitude" ∉ columns (rename df)) ∧
  length (columns (rename df)) = length (columns df) ∧
  rows (rename df) = rows df ∧
  rename (rename df) = rename df.
Proof.
  split_and!.
  - intros [l [Hl _]]%list_elem_of_fmap.
    by destruct (rename_label_never_old l) as [H _].
  - intros [l [Hl _]]%list_elem_of_fmap.
    by destruct (rename_label_never_old l) as [_ H].
  - apply length_fmap.
  - done.
  - unfold rename. cbn. f_equal. rewrite <- list_fmap_compose.
    apply list_fmap_ext. intros i l _. apply rename_label_fixed.
Qed.

Lemma rename_label_modulation (label : string) :
  rename_label label = "modulation" →
  label = "amplitude" ∨ label = "modulation".
Proof.
  unfold rename_label.
  destruct (decide (label = "condition")) as [->|H1].
  { by rewrite bool_decide_eq_true_2. }
  rewrite (bool_decide_eq_false_2 _ H1).
  destruct (decide (label = "amplitude")) as [->|H2]; [by left|].
  rewrite (bool_decide_eq_false_2 _ H2). by right.
Qed.

(** X19. A supplied sparse table that has neither a column [amplitude] nor a
    column [modulation] makes the driver fail with
    [KeyError(['modulation'])] at [dropna], before the design matrix is
    built. *)
Theorem sparse_events_no_modulation (E : Level1Engine) (info path : value)
    (table : frame) (vols : Z) :
  py_getitem info (VStr "sparse") = Ok path →
  FirstLevelModel.supplied path = true →
  l1_read_hdf path "sparse" = Ok table →
  "amplitude" ∉ columns table →
  "modulation" ∉ columns table →
  FirstLevelModel.sparse_events info
    = Raise (KeyError (VList [VStr "modulation"])) ∧
  FirstLevelModel.build_design info vols
    = Raise (KeyError (VList [VStr "modulation"])).
Proof.
  intros Hp Hsup Hread Ha Hm.
  assert (FirstLevelModel.sparse_events info
          = Raise (KeyError (VList [VStr "modulation"]))) as H.
  { unfold FirstLevelModel.sparse_events. rewrite Hp. cbn.
    rewrite Hsup, Hread. cbn. unfold dropna.
    rewrite positions_absent; [done|]. cbn.
    intros [l [Hl Hin]]%list_elem_of_fmap. symmetry in Hl.
    by destruct (rename_label_modulation l Hl) as [->| ->]. }
  split; [exact H|].
  unfold FirstLevelModel.build_design. by rewrite H.
Qed.

Lemma sparse_events_no_modulation_witness :
  py_getitem sparse_session (VStr "sparse") = Ok (VStr "events.h5") ∧
  FirstLevelModel.supplied (VStr "events.h5") = true ∧
  @l1_read_hdf onsets_engine (VStr "events.h5") "sparse" = Ok onsets_table ∧
  ("amplitude" ∉ columns onsets_table) ∧
  ("modulation" ∉ columns onsets_table) ∧
  (@FirstLevelModel.sparse_events onsets_engine sparse_session
     = Raise (KeyError (VList [VStr "modulation"])) ∧
   @FirstLevelModel.build_design onsets_engine sparse_session 2
     = Raise (KeyError (VList [VStr "modulation"]))).
Proof.
  assert ("amplitude" ∉ columns onsets_table) as Ha.
  { cbn. rewrite !not_elem_of_cons. split_and!; try done.
    apply not_elem_of_nil. }
  assert ("modulation" ∉ columns onsets_table) as Hm.
  { cbn. rewrite !not_elem_of_cons. split_and!; try done.
    apply not_elem_of_nil. }
  split; [reflexivity|]. split; [reflexivity|]. split; [reflexivity|].
  split; [exact Ha|]. split; [exact Hm|].
  apply (sparse_events_no_modulation onsets_engine sparse_session
           (VStr "events.h5") onsets_table 2); [reflexivity..|exact Ha|exact Hm].
Defined.

(** Only [None] and the exact string ['None'] count as "not supplied" in the
    tests [info[...] not in (None, 'None')]; every other value, the empty
    string and an unset value included, is taken as a path. *)
Lemma supplied_false_iff (x : value) :
  FirstLevelModel.supplied x = false ↔ x = VNone ∨ x = VStr "None".
Proof.
  unfold FirstLevelModel.supplied. rewrite negb_false_iff, orb_true_iff.
  destruct x; cbn; try (split; [intros [?|?]; done|intros [?|?]; done]).
  - split; [by left|by left].
  - split.
    + intros [?|H]; [done|]. apply bool_decide_eq_true in H. right. by subst.
    + intros [?|[= ->]]; [done|]. right. by apply bool_decide_eq_true_2.
Qed.

(** X20. When [info['sparse']] is [None] or ['None'] no events are passed and no
    table is read, whatever the engine; for every other value the table
    named by it is read, renamed and filtered. *)
Theorem sparse_events_gate (E : Level1Engine) (info path : value) :
  py_getitem info (VStr "sparse") = Ok path →
  (path = VNone ∨ path = VStr "None" →
   FirstLevelModel.sparse_events info = Ok None) ∧
  (path ≠ VNone → path ≠ VStr "None" →
   FirstLevelModel.sparse_events info =
     table ← l1_read_hdf path "sparse";
     sparse ← dropna "modulation" (rename table);
     mret (Some sparse)).
Proof.
  intros Hp. unfold FirstLevelModel.sparse_events. rewrite Hp. cbn. split.
  - intros H. apply supplied_false_iff in H. by rewrite H.
  - intros H1 H2.
    destruct (FirstLevelModel.supplied path) eqn:Hs; [done|].
    apply supplied_false_iff in Hs as [?|?]; done.
Qed.

Lemma sparse_events_gate_witness :
  py_getitem dense_session (VStr "sparse") = Ok VNone ∧
  ((VNone = VNone ∨ VNone = VStr "None" →
    @FirstLevelModel.sparse_events failing_engine dense_session = Ok None) ∧
   (VNone ≠ VNone → VNone ≠ VStr "None" →
    @FirstLevelModel.sparse_events failing_engine dense_session =
      table ← @l1_read_hdf failing_engine VNone "sparse";
      sparse ← dropna "modulation" (rename table);
      mret (Some sparse))).
Proof.
  split; [reflexivity|].
  apply (sparse_events_gate failing_engine dense_session VNone).
  reflexivity.
Defined.

(** X21. A [session_info] without the key [sparse] makes the first-level driver
    fail with [KeyError('sparse')] once the image is loaded: no table is
    read, no design matrix is built and nothing is fitted. *)
Theorem first_level_missing_sparse (E : Level1Engine) (cwd : string)
    (inputs : FirstLevelModel.InputSpec) (d : gmap string value)
    (img : l1_image) (vols : Z) :
  FirstLevelModel.session_info inputs = VDict d →
  d !! "sparse" = None →
  l1_load (FirstLevelModel.bold_file inputs) = Ok img →
  l1_vols img = Ok vols →
  FirstLevelModel.build_design (VDict d) vols
    = Raise (KeyError (VStr "sparse")) ∧
  FirstLevelModel._run_interface cwd inputs
    = Raise (KeyError (VStr "sparse")).
Proof.
  intros Hinfo Hd Hload Hvols.
  assert (FirstLevelModel.build_design (VDict d) vols
          = Raise (KeyError (VStr "sparse"))) as H.
  { unfold FirstLevelModel.build_design, FirstLevelModel.sparse_events.
    cbn. by rewrite Hd. }
  split; [exact H|].
  unfold FirstLevelModel._run_interface.
  rewrite Hload. cbn. rewrite Hvols. cbn. by rewrite Hinfo, H.
Qed.

Lemma first_level_missing_sparse_witness :
  FirstLevelModel.session_info
    {| FirstLevelModel.bold_file := "bold.nii.gz";
       FirstLevelModel.mask_file := VUndefined;
       FirstLevelModel.session_info := VDict {[ "repetition_time" := VInt 2 ]};
       FirstLevelModel.contrast_info := VUndefined |}
    = VDict {[ "repetition_time" := VInt 2 ]} ∧
  ({[ "repetition_time" := VInt 2 ]} : gmap string value) !! "sparse" = None ∧
  @l1_load table_engine "bold.nii.gz" = Ok 2 ∧
  @l1_vols table_engine 2 = Ok 2 ∧
  (@FirstLevelModel.build_design table_engine
     (VDict {[ "repetition_time" := VInt 2 ]}) 2
     = Raise (KeyError (VStr "sparse")) ∧
   @FirstLevelModel._run_interface table_engine "/work"
     {| FirstLevelModel.bold_file := "bold.nii.gz";
        FirstLevelModel.mask_file := VUndefined;
        FirstLevelModel.session_info := VDict {[ "repetition_time" := VInt 2 ]};
        FirstLevelModel.contrast_info := VUndefined |}
     = Raise (KeyError (VStr "sparse"))).
Proof.
  split; [reflexivity|]. split; [reflexivity|].
  split; [reflexivity|]. split; [reflexivity|].
  apply (first_level_missing_sparse table_engine "/work"
           {| FirstLevelModel.bold_file := "bold.nii.gz";
              FirstLevelModel.mask_file := VUndefined;
              FirstLevelModel.session_info :=
                VDict {[ "repetition_time" := VInt 2 ]};
              FirstLevelModel.contrast_info := VUndefined |}
           {[ "repetition_time" := VInt 2 ]} 2 2); reflexivity.
Defined.

(** ** The outputs of the first-level driver *)

Lemma mapM_Ok_inv {A B} (f : A → res B) (l : list A) (ys : list B) :
  mapM f l = Ok ys → Forall2 (fun x y => f x = Ok y) l ys.
Proof.
  revert ys. induction l as [|x l IH]; intros ys.
  { cbn. intros [= <-]. constructor. }
  rewrite mapM_cons. destruct (f x) as [y|] eqn:Hx; [|done]. cbn.
  destruct (mapM f l) as [ys'|]; [|done]. cbn. intros [= <-].
  constructor; [done|]. by apply IH.
Qed.

Lemma effect_of_Ok (E : Level1Engine) (cwd : string) (flm : l1_model)
    (contrast : value) (fname : string) (metadata : value) :
  FirstLevelModel.effect_of cwd flm contrast = Ok (fname, metadata) →
  ∃ weights name,
    py_getitem contrast (VStr "weights") = Ok weights ∧
    py_getitem contrast (VStr "name") = Ok name ∧
    fname = l1_path cwd name ∧
    metadata = VDict {[ "contrast" := weights; "type" := VStr "effect" ]}.
Proof.
  unfold FirstLevelModel.effect_of.
  destruct (py_getitem contrast (VStr "weights")) as [w|]; [|done]. cbn.
  destruct (py_getitem contrast (VStr "type")) as [t|]; [|done]. cbn.
  destruct (l1_compute_contrast _ _ _) as [es|]; [|done]. cbn.
  destruct (py_getitem contrast (VStr "name")) as [n|]; [|done]. cbn.
  destruct (l1_to_filename _ _) as [[]|]; [|done]. cbn.
  intros [= <- <-]. by exists w, n.
Qed.

(** X22. Whenever the first-level driver returns, its outputs follow the
    prepared contrasts, that is [prepare_contrasts] of [contrast_info]
    against the columns of the design matrix that was built: there is one
    map and one metadata record per prepared contrast, in their order; the
    map of a contrast is the path formatted from its [name], its record is
    [{'contrast': weights, 'type': 'effect'}] with its prepared [weights];
    and the design matrix is [design.tsv] in the working directory. *)
Theorem first_level_outputs (E : Level1Engine) (cwd : string)
    (inputs : FirstLevelModel.InputSpec) (out : FirstLevelModel.OutputSpec) :
  FirstLevelModel._run_interface cwd inputs = Ok out →
  ∃ (img : l1_image) (vols : Z) (mat : frame) (cs : list value),
    l1_load (FirstLevelModel.bold_file inputs) = Ok img ∧
    l1_vols img = Ok vols ∧
    FirstLevelModel.build_design (FirstLevelModel.session_info inputs) vols
      = Ok mat ∧
    prepare_contrasts (FirstLevelModel.contrast_info inputs)
                      (VList (VStr <$> columns mat)) = Ok (VList cs) ∧
    Forall2 (fun c f => ∃ name, py_getitem c (VStr "name") = Ok name ∧
                                f = l1_path cwd name)
            cs (FirstLevelModel.contrast_maps out) ∧
    Forall2 (fun c md => ∃ w, py_getitem c (VStr "weights") = Ok w ∧
                              md = VDict {[ "contrast" := w;
                                            "type" := VStr "effect" ]})
            cs (FirstLevelModel.contrast_metadata out) ∧
    length (FirstLevelModel.contrast_maps out)
      = length (FirstLevelModel.contrast_metadata out) ∧
    FirstLevelModel.design_matrix out = l1_join cwd "design.tsv".
Proof.
  unfold FirstLevelModel._run_interface.
  destruct (l1_load _) as [img|] eqn:Himg; [|done]. cbn.
  destruct (l1_vols img) as [vols|] eqn:Hvols; [|done]. cbn.
  destruct (FirstLevelModel.build_design _ vols) as [mat|] eqn:Hmat; [|done].
  cbn.
  destruct (l1_to_csv mat _) as [[]|]; [|done]. cbn.
  destruct (l1_fit _ img mat) as [flm|]; [|done]. cbn.
  destruct (prepare_contrasts _ _) as [contrasts|] eqn:Hpc; [|done]. cbn.
  destruct (prepare_contrasts_returns_list _ _ _ Hpc) as [cs ->]. cbn.
  destruct (mapM _ cs) as [effects|] eqn:Hm; [|done]. cbn.
  intros [= <-]. cbn.
  apply mapM_Ok_inv in Hm.
  exists img, vols, mat, cs. split_and!; [done..| | | |done].
  - apply Forall2_fmap_r. eapply Forall2_impl; [exact Hm|].
    intros c [f md] Hc. cbn.
    apply effect_of_Ok in Hc as (w & n & _ & Hn & -> & _). eauto.
  - apply Forall2_fmap_r. eapply Forall2_impl; [exact Hm|].
    intros c [f md] Hc. cbn.
    apply effect_of_Ok in Hc as (w & n & Hw & _ & _ & ->). eauto.
  - by rewrite !length_fmap.
Qed.

(** An example run: a dense table only, and two contrasts over its columns.
    The maps are named after the contrasts and the records hold their
    weights over the columns [cosine_00] and [trans_x], in the order of the
    contrasts. *)
Lemma first_level_outputs_witness :
  @FirstLevelModel._run_interface named_engine "/work" two_contrast_inputs
    = Ok {| FirstLevelModel.contrast_maps :=
              ["/work/motion.nii.gz"; "/work/drift.nii.gz"];
            FirstLevelModel.contrast_metadata :=
              [VDict {[ "contrast" := VList [VList [VInt 0; VInt 1]];
                        "type" := VStr "effect" ]};
               VDict {[ "contrast" := VList [VList [VInt 1; VInt 0]];
                        "type" := VStr "effect" ]}];
            FirstLevelModel.design_matrix := "/work/design.tsv" |} ∧
  ∃ (img : @l1_image named_engine) (vols : Z) (mat : frame)
    (cs : list value),
    @l1_load named_engine "bold.nii.gz" = Ok img ∧
    @l1_vols named_engine img = Ok vols ∧
    @FirstLevelModel.build_design named_engine dense_session vols = Ok mat ∧
    prepare_contrasts (VList [VDict motion_contrast; VDict drift_contrast])
                      (VList (VStr <$> columns mat)) = Ok (VList cs) ∧
    Forall2 (fun c f => ∃ name, py_getitem c (VStr "name") = Ok name ∧
                                f = @l1_path named_engine "/work" name)
            cs ["/work/motion.nii.gz"; "/work/drift.nii.gz"] ∧
    Forall2 (fun c md => ∃ w, py_getitem c (VStr "weights") = Ok w ∧
                              md = VDict {[ "contrast" := w;
                                            "type" := VStr "effect" ]})
            cs [VDict {[ "contrast" := VList [VList [VInt 0; VInt 1]];
                         "type" := VStr "effect" ]};
                VDict {[ "contrast" := VList [VList [VInt 1; VInt 0]];
                         "type" := VStr "effect" ]}] ∧
    length ["/work/motion.nii.gz"; "/work/drift.nii.gz"]
      = length [VDict {[ "contrast" := VList [VList [VInt 0; VInt 1]];
                         "type" := VStr "effect" ]};
                VDict {[ "contrast" := VList [VList [VInt 1; VInt 0]];
                         "type" := VStr "effect" ]}] ∧
    "/work/design.tsv" = @l1_join named_engine "/work" "design.tsv".
Proof.
  assert (@FirstLevelModel._run_interface named_engine "/work"
            two_contrast_inputs
    = Ok {| FirstLevelModel.contrast_maps :=
              ["/work/motion.nii.gz"; "/work/drift.nii.gz"];
            FirstLevelModel.contrast_metadata :=
              [VDict {[ "contrast" := VList [VList [VInt 0; VInt 1]];
                        "type" := VStr "effect" ]};
               VDict {[ "contrast" := VList [VList [VInt 1; VInt 0]];
                        "type" := VStr "effect" ]}];
            FirstLevelModel.design_matrix := "/work/design.tsv" |}) as H
    by (vm_compute; reflexivity).
  split; [exact H|].
  exact (first_level_outputs named_engine "/work" _ _ H).
Defined.

Lemma effect_of_normalised (E : Level1Engine) (cwd : string)
    (flm : l1_model) (cols : list string) (c : gmap string value)
    (rws : list (gmap string value)) :
  is_Some (c !! "type") →
  is_Some (c !! "name") →
  (∀ w t, ∃ es, l1_compute_contrast flm w t = Ok es) →
  (∀ es f, l1_to_filename es f = Ok tt) →
  FirstLevelModel.effect_of cwd flm (VDict (normalised cols c rws)) =
  Ok (l1_path cwd (default VNone (c !! "name")),
      VDict {[ "contrast" :=
                 VList ((fun row => VList (filled cols row)) <$> rws);
               "type" := VStr "effect" ]}).
Proof.
  intros [t Ht] [n Hn] Hcc Hsave.
  unfold FirstLevelModel.effect_of, normalised. cbn.
  rewrite lookup_insert_eq. cbn.
  rewrite !lookup_insert_ne by done. rewrite Ht, Hn. cbn.
  destruct (Hcc (VList ((fun row => VList (filled cols row)) <$> rws)) t)
    as [es ->]. cbn.
  by rewrite Hsave.
Qed.

(** X23. End to end, with an engine that accepts the calls: the weights recorded
    in the metadata of each contrast are its rows aligned to the columns of
    the fitted design matrix, one record per contrast in their order, and
    each map is named after the contrast's [name]. *)
Theorem first_level_metadata_aligned (E : Level1Engine) (cwd : string)
    (inputs : FirstLevelModel.InputSpec) (img : l1_image) (vols : Z)
    (mat : frame) (flm : l1_model) (cs : list (gmap string value))
    (rowss : list (list (gmap string value))) :
  l1_load (FirstLevelModel.bold_file inputs) = Ok img →
  l1_vols img = Ok vols →
  FirstLevelModel.build_design (FirstLevelModel.session_info inputs) vols
    = Ok mat →
  l1_to_csv mat "design.tsv" = Ok tt →
  l1_fit (if isdefined (FirstLevelModel.mask_file inputs)
          then FirstLevelModel.mask_file inputs else VNone) img mat
    = Ok flm →
  FirstLevelModel.contrast_info inputs = VList (VDict <$> cs) →
  Forall2 (fun c rws =>
             c !! "weights" = Some (VList (VDict <$> rws)) ∧
             is_Some (c !! "type") ∧ is_Some (c !! "name")) cs rowss →
  (∀ w t, ∃ es, l1_compute_contrast flm w t = Ok es) →
  (∀ es f, l1_to_filename es f = Ok tt) →
  FirstLevelModel._run_interface cwd inputs =
  Ok {| FirstLevelModel.contrast_maps :=
          (fun c => l1_path cwd (default VNone (c !! "name"))) <$> cs;
        FirstLevelModel.contrast_metadata :=
          zip_with (fun c rws =>
                      VDict {[ "contrast" :=
                                 VList ((fun row =>
                                           VList (filled (columns mat) row))
                                          <$> rws);
                               "type" := VStr "effect" ]}) cs rowss;
        FirstLevelModel.design_matrix := l1_join cwd "design.tsv" |}.
Proof.
  intros Hload Hvols Hmat Hcsv Hfit Hci Hcs Hcc Hsave.
  unfold FirstLevelModel._run_interface.
  rewrite Hload. cbn. rewrite Hvols. cbn. rewrite Hmat. cbn.
  rewrite Hcsv. cbn. rewrite Hfit. cbn. rewrite Hci.
  rewrite (prepare_contrasts_dicts (columns mat) cs rowss).
  2: { eapply Forall2_impl; [exact Hcs|]. by intros c rws (? & _). }
  cbn.
  assert (mapM (FirstLevelModel.effect_of cwd flm)
            (VDict <$> zip_with (normalised (columns mat)) cs rowss) =
          Ok (zip_with (fun c rws =>
                (l1_path cwd (default VNone (c !! "name")),
                 VDict {[ "contrast" :=
                            VList ((fun row => VList (filled (columns mat) row))
                                     <$> rws);
                          "type" := VStr "effect" ]})) cs rowss)) as ->.
  { clear Hci. induction Hcs as [|c rws cs' rowss' (Hw & Ht & Hn) _ IH];
      [done|].
    cbn [zip_with]. rewrite fmap_cons, mapM_cons.
    rewrite effect_of_normalised by done. rewrite IH. reflexivity. }
  cbn [mbind res_bind mret res_ret]. f_equal. f_equal.
  - clear -Hcs. induction Hcs as [|c rws cs' rowss' _ _ IH]; [done|].
    cbn. by rewrite <- IH.
  - clear -Hcs. induction Hcs as [|c rws cs' rowss' _ _ IH]; [done|].
    cbn. by rewrite <- IH.
Qed.

Lemma first_level_metadata_aligned_witness :
  @l1_load table_engine "bold.nii.gz" = Ok 2 ∧
  @l1_vols table_engine 2 = Ok 2 ∧
  @FirstLevelModel.build_design table_engine dense_session 2
    = Ok confounds_table ∧
  @l1_to_csv table_engine confounds_table "design.tsv" = Ok tt ∧
  @l1_fit table_engine VNone 2 confounds_table = Ok tt ∧
  Forall2 (fun c rws =>
             c !! "weights" = Some (VList (VDict <$> rws)) ∧
             is_Some (c !! "type") ∧ is_Some (c !! "name"))
          [sparse_contrast] [sparse_contrast_rows] ∧
  (∀ w t, ∃ es, @l1_compute_contrast table_engine tt w t = Ok es) ∧
  (∀ es f, @l1_to_filename table_engine es f = Ok tt) ∧
  @FirstLevelModel._run_interface table_engine "/work"
    {| FirstLevelModel.bold_file := "bold.nii.gz";
       FirstLevelModel.mask_file := VUndefined;
       FirstLevelModel.session_info := dense_session;
       FirstLevelModel.contrast_info := VList (VDict <$> [sparse_contrast]) |} =
  Ok {| FirstLevelModel.contrast_maps :=
          (fun c => @l1_path table_engine "/work"
                      (default VNone (c !! "name"))) <$> [sparse_contrast];
        FirstLevelModel.contrast_metadata :=
          zip_with (fun c rws =>
                      VDict {[ "contrast" :=
                                 VList ((fun row =>
                                           VList (filled
                                                    (columns confounds_table)
                                                    row))
                                          <$> rws);
                               "type" := VStr "effect" ]})
                   [sparse_contrast] [sparse_contrast_rows];
        FirstLevelModel.design_matrix :=
          @l1_join table_engine "/work" "design.tsv" |}.
Proof.
  assert (Forall2 (fun c rws =>
             c !! "weights" = Some (VList (VDict <$> rws)) ∧
             is_Some (c !! "type") ∧ is_Some (c !! "name"))
          [sparse_contrast] [sparse_contrast_rows]) as Hcs.
  { repeat constructor; by eexists. }
  assert (∀ w t, ∃ es, @l1_compute_contrast table_engine tt w t = Ok es)
    as Hcc by (intros; by exists tt).
  assert (∀ es f, @l1_to_filename table_engine es f = Ok tt) as Hsave
    by done.
  split; [reflexivity|]. split; [reflexivity|]. split; [reflexivity|].
  split; [reflexivity|]. split; [reflexivity|]. split; [exact Hcs|].
  split; [exact Hcc|]. split; [exact Hsave|].
  apply (first_level_metadata_aligned table_engine "/work"
           {| FirstLevelModel.bold_file := "bold.nii.gz";
              FirstLevelModel.mask_file := VUndefined;
              FirstLevelModel.session_info := dense_session;
              FirstLevelModel.contrast_info :=
                VList (VDict <$> [sparse_contrast]) |}
           2 2 confounds_table tt [sparse_contrast] [sparse_contrast_rows]);
    [reflexivity | reflexivity | reflexivity | reflexivity | reflexivity
    | reflexivity | exact Hcs | exact Hcc | exact Hsave].
Defined.

(** X24. Without contrasts (the input never set, or an empty list) the driver
    still builds and saves the design matrix and fits the model, and returns
    empty lists of maps and metadata. *)
Theorem first_level_no_contrasts (E : Level1Engine) (cwd : string)
    (inputs : FirstLevelModel.InputSpec) (img : l1_image) (vols : Z)
    (mat : frame) (flm : l1_model) :
  l1_load (FirstLevelModel.bold_file inputs) = Ok img →
  l1_vols img = Ok vols →
  FirstLevelModel.build_design (FirstLevelModel.session_info inputs) vols
    = Ok mat →
  l1_to_csv mat "design.tsv" = Ok tt →
  l1_fit (if isdefined (FirstLevelModel.mask_file inputs)
          then FirstLevelModel.mask_file inputs else VNone) img mat
    = Ok flm →
  FirstLevelModel.contrast_info inputs = VUndefined ∨
  FirstLevelModel.contrast_info inputs = VList [] →
  FirstLevelModel._run_interface cwd inputs =
  Ok {| FirstLevelModel.contrast_maps := [];
        FirstLevelModel.contrast_metadata := [];
        FirstLevelModel.design_matrix := l1_join cwd "design.tsv" |}.
Proof.
  intros Hload Hvols Hmat Hcsv Hfit Hci.
  unfold FirstLevelModel._run_interface.
  rewrite Hload. cbn. rewrite Hvols. cbn. rewrite Hmat. cbn.
  rewrite Hcsv. cbn. rewrite Hfit. cbn.
  by destruct Hci as [-> | ->].
Qed.

Lemma first_level_no_contrasts_witness :
  @l1_load table_engine "bold.nii.gz" = Ok 2 ∧
  @l1_vols table_engine 2 = Ok 2 ∧
  @FirstLevelModel.build_design table_engine dense_session 2
    = Ok confounds_table ∧
  @l1_to_csv table_engine confounds_table "design.tsv" = Ok tt ∧
  @l1_fit table_engine VNone 2 confounds_table = Ok tt ∧
  (VUndefined = VUndefined ∨ VUndefined = VList []) ∧
  @FirstLevelModel._run_interface table_engine "/work"
    {| FirstLevelModel.bold_file := "bold.nii.gz";
       FirstLevelModel.mask_file := VUndefined;
       FirstLevelModel.session_info := dense_session;
       FirstLevelModel.contrast_info := VUndefined |} =
  Ok {| FirstLevelModel.contrast_maps := [];
        FirstLevelModel.contrast_metadata := [];
        FirstLevelModel.design_matrix :=
          @l1_join table_engine "/work" "design.tsv" |}.
Proof.
  split; [reflexivity|]. split; [reflexivity|]. split; [reflexivity|].
  split; [reflexivity|]. split; [reflexivity|]. split; [by left|].
  apply (first_level_no_contrasts table_engine "/work"
           {| FirstLevelModel.bold_file := "bold.nii.gz";
              FirstLevelModel.mask_file := VUndefined;
              FirstLevelModel.session_info := dense_session;
              FirstLevelModel.contrast_info := VUndefined |}
           2 2 confounds_table tt);
    [reflexivity | reflexivity | reflexivity | reflexivity | reflexivity
    | by left].
Defined.
